(** * Market analysis pipeline (shrs-capstone): a shallow embedding

    [create_market_analysis.py] writes out seven files; six of them are R
    scripts: a configuration script and five analysis stages.  The behaviour
    the specification talks about is the behaviour of those R scripts, so the
    definitions below follow the R text held in the generator's string
    literals, function by function and [case_when] clause by clause.

    Conventions of the embedding.
    - An R double is an exact rational, or one of the special values [NA]
      (which also stands for [NaN]: both satisfy [is.na] and both propagate
      through arithmetic and comparisons the same way), [-Inf], [Inf].
      Rounding of binary64 arithmetic is not modelled; the module [Binary64]
      re-evaluates the worked examples on IEEE doubles.
    - An R logical is [option bool], [None] being the logical [NA].
    - A character value is [option string], [None] being [NA_character_].
    - A table in memory is a list of records holding the columns the script
      reads; a table in a file is a header and rows of cells, each cell a
      double or a character value (what [read_csv] makes of the text).
    - Scripts that touch the file system run in a state-and-abort monad over
      a [world]: [stop()] and [quit()] both end the script, keeping the files
      written so far.  A write always succeeds and stamps the file with the
      world's clock.
    - Console output ([message], [print]) other than the text given to
      [stop()], package loading and the plots' contents are not part of the
      model.

    Layout: table verbs ([Dplyr]) and R values ([RValue]); files and the
    script monad ([Script]); one module per script ([Config],
    [LaborMarketTrends], [CredentialPressure], [PeerProgramSupply],
    [WageVsCost], [MarketRiskIndex]); the inputs and the stages that read
    them ([Stages]); the stages composed on one set of inputs ([Pipeline]);
    the vocabulary of the specification ([Spec]); then the properties. *)

From Stdlib Require Import QArith Qabs Lqa Lia List String Ascii Bool PrimFloat.
From stdpp Require Import gmap strings list fin_maps.

Local Open Scope string_scope.

(** ** Table verbs

    The dplyr verbs the scripts use, on tables held as lists of rows. *)

Module Dplyr.

(** [arrange]: a stable sort.  [before a b] says that [a] must come strictly
    before [b]; rows that neither precedes keep their order. *)
Fixpoint arrange_insert {A : Type} (before : A -> A -> bool) (x : A) (ys : list A) : list A :=
  match ys with
  | [] => [x]
  | y :: ys' => if before y x then y :: arrange_insert before x ys' else x :: ys
  end.

Definition arrange {A : Type} (before : A -> A -> bool) (rows : list A) : list A :=
  fold_right (arrange_insert before) [] rows.

(** [left_join(x, y, by = key)]: every row of [x], in order, paired with each
    matching row of [y]; a row of [x] without a match is kept once, its [y]
    columns missing.  Keys are compared as values, so an [NA] key matches an
    [NA] key (dplyr's default [na_matches = "na"]). *)
Definition left_join {A B C K : Type} `{EqDecision K}
    (kx : A -> K) (ky : B -> K) (combine : A -> option B -> C)
    (x : list A) (y : list B) : list C :=
  List.flat_map
    (fun a =>
       match List.filter (fun b => bool_decide (ky b = kx a)) y with
       | [] => [combine a None]
       | matches => List.map (fun b => combine a (Some b)) matches
       end)
    x.

(** The rows of the group a row belongs to under [group_by(key)]. *)
Definition group_rows {A K : Type} `{EqDecision K} (key : A -> K) (rows : list A) (r : A) : list A :=
  List.filter (fun r' => bool_decide (key r' = key r)) rows.

(** The distinct keys of a table, in order of first appearance. *)
Definition group_keys {A K : Type} `{EqDecision K} (key : A -> K) (rows : list A) : list K :=
  remove_dups (List.map key rows).

End Dplyr.

(** ** R values *)

Module RValue.

(** [numeric]: an R double. *)
Inductive numeric : Type :=
| NA
| NegInf
| PosInf
| Num (q : Q).

(** A logical vector element: [Some b] or the logical [NA]. *)
Abbreviation logical := (option bool).

(** A character vector element. *)
Abbreviation character := (option string).

Definition is_na (x : numeric) : bool :=
  match x with NA => true | _ => false end.

Definition is_na_chr (x : character) : bool :=
  match x with None => true | Some _ => false end.

(** Sign of a value that is not [NA]: [Lt] negative, [Eq] zero, [Gt] positive. *)
Definition num_sign (x : numeric) : option comparison :=
  match x with
  | NA => None
  | NegInf => Some Lt
  | PosInf => Some Gt
  | Num q => Some (q ?= 0)%Q
  end.

Definition sign_mul (a b : comparison) : comparison :=
  match a, b with
  | Eq, _ | _, Eq => Eq
  | Lt, Lt | Gt, Gt => Gt
  | Lt, Gt | Gt, Lt => Lt
  end.

(** The infinity of a given sign; a zero sign gives [NaN]. *)
Definition inf_of_sign (c : comparison) : numeric :=
  match c with Lt => NegInf | Eq => NA | Gt => PosInf end.

Definition num_neg (x : numeric) : numeric :=
  match x with
  | NA => NA
  | NegInf => PosInf
  | PosInf => NegInf
  | Num q => Num (- q)
  end.

(** [x + y] *)
Definition num_add (x y : numeric) : numeric :=
  match x, y with
  | NA, _ | _, NA => NA
  | PosInf, NegInf | NegInf, PosInf => NA
  | PosInf, _ | _, PosInf => PosInf
  | NegInf, _ | _, NegInf => NegInf
  | Num a, Num b => Num (a + b)
  end.

(** [x - y] *)
Definition num_sub (x y : numeric) : numeric := num_add x (num_neg y).

(** [x * y] *)
Definition num_mul (x y : numeric) : numeric :=
  match x, y with
  | Num a, Num b => Num (a * b)
  | _, _ =>
      match num_sign x, num_sign y with
      | Some sx, Some sy => inf_of_sign (sign_mul sx sy)
      | _, _ => NA
      end
  end.

(** [x / y]: a finite value over zero is an infinity of the numerator's sign,
    [0 / 0] is [NaN]; the zero divisor is taken as [+0]. *)
Definition num_div (x y : numeric) : numeric :=
  match x, y with
  | NA, _ | _, NA => NA
  | Num a, Num b => if Qeq_bool b 0 then inf_of_sign (a ?= 0)%Q else Num (a / b)
  | Num _, _ => Num 0
  | _, Num b =>
      match num_sign x with
      | Some sx => inf_of_sign (sign_mul sx (if Qeq_bool b 0 then Gt else (b ?= 0)%Q))
      | None => NA
      end
  | _, _ => NA
  end.

(** Three-way comparison of two values, undefined when either is [NA]. *)
Definition num_compare (x y : numeric) : option comparison :=
  match x, y with
  | NA, _ | _, NA => None
  | NegInf, NegInf | PosInf, PosInf => Some Eq
  | NegInf, _ | _, PosInf => Some Lt
  | PosInf, _ | _, NegInf => Some Gt
  | Num a, Num b => Some (a ?= b)%Q
  end.

(** [x <= y], [x >= y], [x < y] as R evaluates them: [NA] when an operand is. *)
Definition num_le (x y : numeric) : logical :=
  match num_compare x y with
  | Some Gt => Some false
  | Some _ => Some true
  | None => None
  end.

Definition num_ge (x y : numeric) : logical := num_le y x.

Definition num_lt (x y : numeric) : logical :=
  match num_compare x y with
  | Some Lt => Some true
  | Some _ => Some false
  | None => None
  end.

(** [x == s] on character values. *)
Definition chr_eq (x : character) (s : string) : logical :=
  match x with
  | None => None
  | Some t => Some (bool_decide (t = s))
  end.

(** [a & b]: [FALSE] wins over [NA]. *)
Definition and3 (a b : logical) : logical :=
  match a, b with
  | Some false, _ | _, Some false => Some false
  | Some true, Some true => Some true
  | _, _ => None
  end.

(** [x %in% table]: never [NA]; an [NA] element matches only an [NA] entry,
    and the tables used here have none. *)
Definition chr_in (x : character) (table : list string) : bool :=
  match x with
  | None => false
  | Some t => bool_decide (t ∈ table)
  end.

(** dplyr's [case_when]: the value of the first clause whose condition is
    [TRUE]; a condition that is [FALSE] or [NA] is passed over; [NA] (here
    [None]) when no clause fires. *)
Fixpoint case_when {A : Type} (clauses : list (logical * A)) : option A :=
  match clauses with
  | [] => None
  | (cond, v) :: rest =>
      match cond with
      | Some true => Some v
      | _ => case_when rest
      end
  end.

(** A numeric [case_when] column: no clause firing leaves [NA_real_]. *)
Definition case_when_num (clauses : list (logical * Q)) : numeric :=
  match case_when clauses with
  | Some q => Num q
  | None => NA
  end.

(** The literal [TRUE] used as the last clause's condition. *)
Definition TRUE : logical := Some true.

(** [pmin(x, y)] on two scalars (with the default [na.rm = FALSE]). *)
Definition pmin (x y : numeric) : numeric :=
  match num_le x y with
  | Some true => x
  | Some false => y
  | None => NA
  end.

(** Dropping [NA]s, as [na.rm = TRUE] does. *)
Definition na_rm (xs : list numeric) : list numeric :=
  List.filter (fun x => negb (is_na x)) xs.

(** [max(xs, na.rm = TRUE)]; of nothing it is [-Inf]. *)
Definition max2 (x y : numeric) : numeric :=
  match num_le x y with
  | Some true => y
  | Some false => x
  | None => NA
  end.

Definition max_na_rm (xs : list numeric) : numeric :=
  fold_right max2 NegInf (na_rm xs).

(** [sum(xs)] *)
Definition num_sum (xs : list numeric) : numeric :=
  fold_right num_add (Num 0) xs.

Definition num_of_nat (n : nat) : numeric := Num (inject_Z (Z.of_nat n)).

(** [mean(xs, na.rm = TRUE)]; of nothing it is [0 / 0]. *)
Definition mean_na_rm (xs : list numeric) : numeric :=
  let ys := na_rm xs in
  num_div (num_sum ys) (num_of_nat (length ys)).

(** [sort(xs)] (ascending) of values without [NA]. *)
Definition num_before (x y : numeric) : bool :=
  match num_lt x y with Some true => true | _ => false end.

Definition num_sort (xs : list numeric) : list numeric :=
  Dplyr.arrange num_before xs.

(** The order of [arrange(desc(x))]: larger values first, [NA] last. *)
Definition desc_before (x y : numeric) : bool :=
  match x, y with
  | NA, _ => false
  | _, NA => true
  | _, _ => num_before y x
  end.

(** The ascending order of character keys ([NA] last), as [arrange] and
    the group keys of [summarize] use it. *)
Definition chr_before (x y : character) : bool :=
  match x, y with
  | None, _ => false
  | Some _, None => true
  | Some a, Some b => String.ltb a b
  end.

(** A cell of a data frame: a double or a character value. *)
Inductive cell : Type :=
| Dbl (x : numeric)
| Chr (s : character).

(** A column read as a double, or as character; a cell that is absent or of
    the other type reads as [NA]. *)
Definition dbl (q : Q) : cell := Dbl (Num q).

Definition chr (s : string) : cell := Chr (Some s).

Arguments Num q%_Q.
Arguments dbl q%_Q.

Definition as_dbl (c : option cell) : numeric :=
  match c with Some (Dbl x) => x | _ => NA end.

Definition as_chr (c : option cell) : character :=
  match c with Some (Chr s) => s | _ => None end.

(** [median(xs, na.rm = TRUE)]: [NA] of nothing, the middle element of an odd
    number of values, the mean of the two middle elements otherwise. *)
Definition median_na_rm (xs : list numeric) : numeric :=
  let ys := num_sort (na_rm xs) in
  let n := length ys in
  if Nat.eqb n 0 then NA
  else
    let half := Nat.div (n + 1) 2 in
    if Nat.odd n then nth (half - 1) ys NA
    else num_div (num_add (nth (half - 1) ys NA) (nth half ys NA)) (Num 2).

End RValue.

(** ** Scripts, files and the R session *)

Module Script.

(** What a file holds, as far as the scripts read it back. *)
Inductive file_data : Type :=
| Csv (header : list string) (rows : list (list RValue.cell))
| Json (script_name run_timestamp : string) (input_files : gmap string string)
| RSource (DATA_ROOT : option string)
| Opaque_data.

(** [RSource b]: an R file which, once sourced, leaves [DATA_ROOT] bound to
    [b] ([None]: [exists("DATA_ROOT")] is [FALSE] afterwards).
    [Opaque_data]: Markdown tables and PNG figures, written and never read. *)

Record file : Type := { mtime : string; data : file_data }.

Record world : Type := {
  env_SHRS_DATA_ROOT : string;   (* Sys.getenv("SHRS_DATA_ROOT", unset = "") *)
  dirs : gset string;            (* the directories that exist *)
  files : gmap string file;      (* the regular files that exist *)
  clock : string                 (* the time stamp a write gives its file *)
}.

(** How a script (or a call) ends. *)
Inductive outcome (A : Type) : Type :=
| Returned (a : A)
| Quit                 (* quit(save = "no", status = 0) *)
| Stopped (msg : string).  (* stop(msg) *)

Arguments Returned {A} a.
Arguments Quit {A}.
Arguments Stopped {A} msg.

Definition M (A : Type) : Type := world -> outcome A * world.

Definition ret {A : Type} (a : A) : M A := fun w => (Returned a, w).

Definition bind {A B : Type} (m : M A) (k : A -> M B) : M B :=
  fun w =>
    match m w with
    | (Returned a, w') => k a w'
    | (Quit, w') => (Quit, w')
    | (Stopped msg, w') => (Stopped msg, w')
    end.

Definition stop {A : Type} (msg : string) : M A := fun w => (Stopped msg, w).

Definition quit {A : Type} : M A := fun w => (Quit, w).

Definition file_exists (path : string) : M bool :=
  fun w => (Returned (bool_decide (is_Some (files w !! path))), w).

Definition dir_exists (path : string) : M bool :=
  fun w => (Returned (bool_decide (path ∈ dirs w)), w).

(** [as.character(file.info(f)$mtime)] of a file that exists. *)
Definition file_mtime (path : string) : M (option string) :=
  fun w => (Returned (mtime <$> files w !! path), w).

Definition write_file (path : string) (d : file_data) : M unit :=
  fun w =>
    (Returned tt,
     {| env_SHRS_DATA_ROOT := env_SHRS_DATA_ROOT w;
        dirs := dirs w;
        files := <[path := {| mtime := clock w; data := d |}]> (files w);
        clock := clock w |}).

(** [dir.create(path, recursive = TRUE)] *)
Definition dir_create (path : string) : M unit :=
  fun w =>
    (Returned tt,
     {| env_SHRS_DATA_ROOT := env_SHRS_DATA_ROOT w;
        dirs := {[path]} ∪ dirs w;
        files := files w;
        clock := clock w |}).

(** [file.path(a, b)] *)
Definition file_path (a b : string) : string := a +:+ "/" +:+ b.

(** The line break written [\n] in the R string literals. *)
Definition nl : string := String (ascii_of_nat 10) EmptyString.

(** [read_csv(path)]: the header and the rows of a file that holds a table. *)
Definition read_csv (path : string) : M (list string * list (list RValue.cell)) :=
  fun w =>
    match data <$> files w !! path with
    | Some (Csv header rows) => (Returned (header, rows), w)
    | _ => (Stopped ("cannot read " +:+ path), w)
    end.

(** The cell of a row under a column name. *)
Fixpoint column_index (header : list string) (name : string) : option nat :=
  match header with
  | [] => None
  | h :: rest => if bool_decide (h = name) then Some 0 else S <$> column_index rest name
  end.

Definition field (header : list string) (row : list RValue.cell) (name : string)
    : option RValue.cell :=
  match column_index header name with
  | Some i => row !! i
  | None => None
  end.

(** [setdiff(required_cols, names(df))] *)
Definition missing_columns (header required_cols : list string) : list string :=
  List.filter (fun c => negb (bool_decide (c ∈ header))) required_cols.

(** [validate_required_columns(df, required_cols, df_name)].  Each stage
    script defines its own copy; the copies differ in the wording between
    the table's name and the list of columns, passed here as [wording]. *)
Definition validate_required_columns (header required_cols : list string)
    (df_name wording : string) : M unit :=
  let missing_cols := missing_columns header required_cols in
  if (0 <? length missing_cols)%nat
  then stop (df_name +:+ wording +:+ String.concat ", " missing_cols)
  else ret tt.

(** [select(...)] of columns: dplyr stops when one is not in the table. *)
Definition select_columns (header cols : list string) : M unit :=
  match missing_columns header cols with
  | [] => ret tt
  | c :: _ => stop ("Can't select columns that don't exist. Column `" +:+ c +:+ "` doesn't exist.")
  end.

(** [write.csv(df, path, row.names = FALSE)] *)
Definition write_csv (path : string) (header : list string)
    (rows : list (list RValue.cell)) : M unit :=
  write_file path (Csv header rows).

(** [ggsave(fig_path, ...)] *)
Definition ggsave (fig_path : string) : M unit := write_file fig_path Opaque_data.

End Script.

Notation "'let*' x := m 'in' k" := (Script.bind m (fun x => k))
  (at level 10, x name, m at level 100, k at level 200).

(** ** 00_market_config.R *)

Module Config.
Import RValue Script.

(** [MARKET_CONFIG$risk_weights] *)
Record weights_list : Type := {
  labor_demand : Q;
  wage_level : Q;
  peer_saturation : Q;
  credential_pressure : Q
}.

(** The weights as the script is written. *)
Definition default_risk_weights : weights_list :=
  {| labor_demand := 0.35;
     wage_level := 0.25;
     peer_saturation := 0.20;
     credential_pressure := 0.20 |}.

Record market_config : Type := {
  data_root : string;
  market_data_dir : string;
  internal_data_dir : string;
  output_tables : string;
  output_figures : string;
  output_reports : string;
  cache_dir : string;
  FORCE_REBUILD : bool;
  programs : list string;
  risk_weights : weights_list
}.

Definition sys_getenv_SHRS_DATA_ROOT : M string :=
  fun w => (Returned (env_SHRS_DATA_ROOT w), w).

(** [source(config_file, local = TRUE)] followed by [exists("DATA_ROOT")]:
    the binding of [DATA_ROOT] once the file has been evaluated.  A file that
    is not R source does not parse. *)
Definition source_data_paths (config_file : string) : M (option string) :=
  fun w =>
    match data <$> files w !! config_file with
    | Some (RSource binding) => (Returned binding, w)
    | _ => (Stopped ("cannot source " +:+ config_file), w)
    end.

Definition nzchar (s : string) : bool := negb (bool_decide (s = "")).

Definition data_root_not_configured : string :=
  "Data root not configured. Please either:" +:+ nl +:+
  "  1. Set environment variable: Sys.setenv(SHRS_DATA_ROOT = '/path/to/data')" +:+ nl +:+
  "  2. Create scripts/config/data_paths.R with: DATA_ROOT <- '/path/to/data'" +:+ nl.

Definition get_data_root : M string :=
  let* env_root := sys_getenv_SHRS_DATA_ROOT in
  if nzchar env_root then
    let* there := dir_exists env_root in
    if negb there then
      stop ("SHRS_DATA_ROOT environment variable set but directory does not exist: "
            +:+ env_root)
    else ret env_root
  else
    let config_file := "scripts/config/data_paths.R" in
    let* present := file_exists config_file in
    if present then
      let* binding := source_data_paths config_file in
      match binding with
      | Some DATA_ROOT =>
          let* there := dir_exists DATA_ROOT in
          if negb there then
            stop ("DATA_ROOT defined in " +:+ config_file
                  +:+ " but directory does not exist: " +:+ DATA_ROOT)
          else ret DATA_ROOT
      | None => stop data_root_not_configured
      end
    else stop data_root_not_configured.

(** [abs(sum(unlist(risk_weights)) - 1.0) > 0.001] *)
Definition weights_off (ws : weights_list) : bool :=
  negb (Qle_bool
          (Qabs (labor_demand ws + wage_level ws + peer_saturation ws
                 + credential_pressure ws - 1))
          0.001).

(** The loop that creates the output directories that do not exist yet. *)
Fixpoint create_directories (paths : list string) : M unit :=
  match paths with
  | [] => ret tt
  | dir_path :: rest =>
      let* there := dir_exists dir_path in
      let* _ := (if negb there then dir_create dir_path else ret tt) in
      create_directories rest
  end.

(** The whole script, with the weights written in it as a parameter: it
    returns the [MARKET_CONFIG] object it leaves in the session. *)
Definition market_config_R (written_weights : weights_list) : M market_config :=
  let* root := get_data_root in
  let* root_market := get_data_root in
  let* root_internal := get_data_root in
  let MARKET_CONFIG :=
    {| data_root := root;
       market_data_dir := file_path root_market "market";
       internal_data_dir := file_path root_internal "internal";
       output_tables := "output/tables";
       output_figures := "output/figures";
       output_reports := "output/reports";
       cache_dir := "output/.cache";
       FORCE_REBUILD := false;
       programs := ["CSD_SLP"; "CSD_AuD"; "CSD_UG"; "SMN_AT"; "SMN_DN"; "SMN_SS"; "SMN_UG"];
       risk_weights := written_weights |} in
  if weights_off (risk_weights MARKET_CONFIG) then
    stop "MARKET_CONFIG$risk_weights must sum to 1.0"
  else
    let* _ := create_directories
      [output_tables MARKET_CONFIG; output_figures MARKET_CONFIG;
       output_reports MARKET_CONFIG; cache_dir MARKET_CONFIG] in
    ret MARKET_CONFIG.

(** The first lines of every stage script:
    [if (!exists("MARKET_CONFIG")) source(".../00_market_config.R")].
    [session] is the [MARKET_CONFIG] of the R session the stage is started
    in, if it has one (a fresh [Rscript] process has none). *)
Definition ensure_config (written_weights : weights_list)
    (session : option market_config) : M market_config :=
  match session with
  | Some MARKET_CONFIG => ret MARKET_CONFIG
  | None => market_config_R written_weights
  end.

(** [jsonlite::fromJSON(cache_file)], read as cache metadata. *)
Definition fromJSON (cache_file : string) : M (gmap string string) :=
  fun w =>
    match data <$> files w !! cache_file with
    | Some (Json _ _ input_files) => (Returned input_files, w)
    | _ => (Stopped ("cannot parse " +:+ cache_file), w)
    end.

Definition cache_file_of (MARKET_CONFIG : market_config) (script_name : string) : string :=
  file_path (cache_dir MARKET_CONFIG) ("market_" +:+ script_name +:+ "_inputs.json").

(** The [for (f in input_files)] loop of [should_rebuild], which returns
    [TRUE] from inside at the first file that is missing, unrecorded or
    changed, and falls out to [return(FALSE)]. *)
Fixpoint inputs_changed (cached : gmap string string) (input_files : list string) : M bool :=
  match input_files with
  | [] => ret false
  | f :: rest =>
      let* present := file_exists f in
      if negb present then ret true
      else
        let* current_mtime := file_mtime f in
        let cached_mtime := cached !! f in
        if bool_decide (cached_mtime = None) || negb (bool_decide (current_mtime = cached_mtime))
        then ret true
        else inputs_changed cached rest
  end.

Definition should_rebuild (MARKET_CONFIG : market_config)
    (script_name : string) (input_files : list string) : M bool :=
  if FORCE_REBUILD MARKET_CONFIG then ret true
  else
    let cache_file := cache_file_of MARKET_CONFIG script_name in
    let* present := file_exists cache_file in
    if negb present then ret true
    else
      let* cache_data := fromJSON cache_file in
      inputs_changed cache_data input_files.

(** [as.character(file.info(f)$mtime)] for each input, under the input's
    name; an input that does not exist has no time stamp to record. *)
Definition current_mtimes (input_files : list string) : M (gmap string string) :=
  fun w =>
    (Returned
       (foldr (fun f m =>
                 match mtime <$> files w !! f with
                 | Some t => <[f := t]> m
                 | None => m
                 end) ∅ input_files),
     w).

Definition sys_time : M string := fun w => (Returned (clock w), w).

(** [as.character(Sys.Date())]: the clock again; how it prints is not
    modelled. *)
Definition sys_date : M string := fun w => (Returned (clock w), w).

Definition save_cache_metadata (MARKET_CONFIG : market_config)
    (script_name : string) (input_files : list string) : M unit :=
  let cache_file := cache_file_of MARKET_CONFIG script_name in
  let* now := sys_time in
  let* stamps := current_mtimes input_files in
  write_file cache_file (Json script_name now stamps).

(** [write_dual_format(df, base_name)]: the table as CSV and as Markdown. *)
Definition write_dual_format (MARKET_CONFIG : market_config) (header : list string)
    (rows : list (list cell)) (base_name : string) : M unit :=
  let output_dir := output_tables MARKET_CONFIG in
  let csv_path := file_path output_dir (base_name +:+ ".csv") in
  let* _ := write_csv csv_path header rows in
  let md_path := file_path output_dir (base_name +:+ ".md") in
  write_file md_path Opaque_data.

End Config.

(** ** 01_labor_market_trends.R *)

Module LaborMarketTrends.
Import RValue Script Config.

(** [gsub("-", "", x)] *)
Fixpoint remove_dashes (x : string) : string :=
  match x with
  | EmptyString => EmptyString
  | String c rest =>
      if Ascii.eqb c "-" then remove_dashes rest else String c (remove_dashes rest)
  end.

Fixpoint zeros (n : nat) : string :=
  match n with
  | O => EmptyString
  | S n' => String "0" (zeros n')
  end.

(** [str_pad(x, width = 6, side = "right", pad = "0")] *)
Definition str_pad_right_6 (x : string) : string :=
  x +:+ zeros (6 - String.length x).

Definition standardize_soc_code (x : character) : character :=
  str_pad_right_6 <$> (remove_dashes <$> x).

Record crosswalk_row : Type := {
  cw_program : string;
  cw_soc_code : string;
  cw_occupation_title : string
}.

Definition build_shrs_soc_crosswalk : list crosswalk_row :=
  [ {| cw_program := "CSD_SLP"; cw_soc_code := "291127";
       cw_occupation_title := "Speech-Language Pathologists" |};
    {| cw_program := "CSD_AuD"; cw_soc_code := "291181";
       cw_occupation_title := "Audiologists" |};
    {| cw_program := "CSD_UG"; cw_soc_code := "291127";
       cw_occupation_title := "Speech-Language Pathologists" |};
    {| cw_program := "SMN_AT"; cw_soc_code := "299091";
       cw_occupation_title := "Athletic Trainers" |};
    {| cw_program := "SMN_DN"; cw_soc_code := "291031";
       cw_occupation_title := "Dietitians and Nutritionists" |};
    {| cw_program := "SMN_SS"; cw_soc_code := "271029";
       cw_occupation_title := "Exercise Physiologists and Kinesiotherapists" |};
    {| cw_program := "SMN_UG"; cw_soc_code := "271029";
       cw_occupation_title := "Exercise Physiologists and Kinesiotherapists" |} ].

(** The columns of [bls_oews.csv] the stage reads. *)
Record oews_row : Type := {
  soc_code : character;
  occupation_title : character;
  employment : numeric;
  median_wage_annual : numeric
}.

(** The columns of [bls_projections.csv] kept by
    [select(soc_code, change_percent, base_year, projected_year)]. *)
Record proj_row : Type := {
  proj_soc_code : character;
  change_percent : numeric;
  base_year : numeric;
  projected_year : numeric
}.

(** A row of [labor_data], the crosswalk joined to both tables. *)
Record labor_data_row : Type := {
  ld_crosswalk : crosswalk_row;
  ld_oews : option oews_row;
  ld_proj : option proj_row
}.

Definition ld_median_wage_annual (r : labor_data_row) : numeric :=
  match ld_oews r with Some o => median_wage_annual o | None => NA end.

Definition ld_employment (r : labor_data_row) : numeric :=
  match ld_oews r with Some o => employment o | None => NA end.

Definition ld_occupation_title_oews (r : labor_data_row) : character :=
  match ld_oews r with Some o => occupation_title o | None => None end.

Definition ld_change_percent (r : labor_data_row) : numeric :=
  match ld_proj r with Some p => change_percent p | None => NA end.

Definition ld_base_year (r : labor_data_row) : numeric :=
  match ld_proj r with Some p => base_year p | None => NA end.

(** A row of [market_labor_summary]. *)
Record summary_row : Type := {
  program : character;
  s_occupation_title : character;
  s_employment : numeric;
  s_median_wage_annual : numeric;
  wage_index : numeric;
  projected_growth_pct : numeric;
  growth_category : character;
  projection_period : numeric
}.

(** The [case_when] that buckets [change_percent]. *)
Definition growth_category_of (change_percent : numeric) : character :=
  case_when
    [ (Some (is_na change_percent), "Unknown");
      (num_ge change_percent (Num 15), "High Growth");
      (num_ge change_percent (Num 8), "Moderate Growth");
      (num_ge change_percent (Num 0), "Slow Growth");
      (TRUE, "Decline") ].

Definition join_labor_data (oews_df : list oews_row) (proj_df : list proj_row)
    (crosswalk_df : list crosswalk_row) : list labor_data_row :=
  Dplyr.left_join
    (fun co : crosswalk_row * option oews_row => Some (cw_soc_code (fst co)))
    proj_soc_code
    (fun co p => {| ld_crosswalk := fst co; ld_oews := snd co; ld_proj := p |})
    (Dplyr.left_join
       (fun c => Some (cw_soc_code c)) soc_code (fun c o => (c, o))
       crosswalk_df oews_df)
    proj_df.

Definition compute_labor_market_summary (oews_df : list oews_row)
    (proj_df : list proj_row) (crosswalk_df : list crosswalk_row) : list summary_row :=
  let labor_data := join_labor_data oews_df proj_df crosswalk_df in
  let grand_median_wage := median_na_rm (List.map ld_median_wage_annual labor_data) in
  Dplyr.arrange
    (fun a b => desc_before (projected_growth_pct a) (projected_growth_pct b))
    (List.map
       (fun r =>
          {| program := Some (cw_program (ld_crosswalk r));
             s_occupation_title := ld_occupation_title_oews r;
             s_employment := ld_employment r;
             s_median_wage_annual := ld_median_wage_annual r;
             wage_index := num_div (ld_median_wage_annual r) grand_median_wage;
             projected_growth_pct := ld_change_percent r;
             growth_category := growth_category_of (ld_change_percent r);
             projection_period := ld_base_year r |})
       labor_data).

(** *** The script *)

Definition OEWS_FILE (MARKET_CONFIG : market_config) : string :=
  file_path (market_data_dir MARKET_CONFIG) "bls_oews.csv".

Definition PROJ_FILE (MARKET_CONFIG : market_config) : string :=
  file_path (market_data_dir MARKET_CONFIG) "bls_projections.csv".

Definition template_oews_header : list string :=
  ["soc_code"; "occupation_title"; "employment"; "median_wage_annual"; "data_year"].

Definition template_oews : list (list cell) :=
  [ [chr "291127"; chr "Speech-Language Pathologists"; dbl 145100; dbl 84140; dbl 2023];
    [chr "291181"; chr "Audiologists"; dbl 13590; dbl 86490; dbl 2023];
    [chr "299091"; chr "Athletic Trainers"; dbl 35330; dbl 51070; dbl 2023];
    [chr "291031"; chr "Dietitians and Nutritionists"; dbl 76530; dbl 68650; dbl 2023];
    [chr "271029"; chr "Exercise Physiologists and Kinesiotherapists"; dbl 25370; dbl 54730;
     dbl 2023] ].

Definition template_proj_header : list string :=
  ["soc_code"; "occupation_title"; "base_year_employment"; "projected_year_employment";
   "change_numeric"; "change_percent"; "base_year"; "projected_year"].

Definition template_proj : list (list cell) :=
  [ [chr "291127"; chr "Speech-Language Pathologists"; dbl 145100; dbl 173600; dbl 28500;
     dbl 19.6; dbl 2023; dbl 2033];
    [chr "291181"; chr "Audiologists"; dbl 13590; dbl 15000; dbl 1410; dbl 10.4; dbl 2023;
     dbl 2033];
    [chr "299091"; chr "Athletic Trainers"; dbl 35330; dbl 39500; dbl 4170; dbl 11.8;
     dbl 2023; dbl 2033];
    [chr "291031"; chr "Dietitians and Nutritionists"; dbl 76530; dbl 85500; dbl 8970;
     dbl 11.7; dbl 2023; dbl 2033];
    [chr "271029"; chr "Exercise Physiologists and Kinesiotherapists"; dbl 25370; dbl 28400;
     dbl 3030; dbl 11.9; dbl 2023; dbl 2033] ].

Definition oews_template_path (MARKET_CONFIG : market_config) : string :=
  file_path (output_tables MARKET_CONFIG) "bls_oews_TEMPLATE.csv".

Definition proj_template_path (MARKET_CONFIG : market_config) : string :=
  file_path (output_tables MARKET_CONFIG) "bls_projections_TEMPLATE.csv".

Definition oews_required_columns : list string :=
  ["soc_code"; "occupation_title"; "employment"; "median_wage_annual"].

Definition proj_required_columns : list string :=
  ["soc_code"; "occupation_title"; "change_percent"].

Definition proj_selected_columns : list string :=
  ["soc_code"; "change_percent"; "base_year"; "projected_year"].

(** The rows of the two tables at the types the stage uses them at, with
    [standardize_soc_code] applied. *)
Definition oews_of_frame (header : list string) (rows : list (list cell)) : list oews_row :=
  List.map
    (fun r =>
       {| soc_code := standardize_soc_code (as_chr (field header r "soc_code"));
          occupation_title := as_chr (field header r "occupation_title");
          employment := as_dbl (field header r "employment");
          median_wage_annual := as_dbl (field header r "median_wage_annual") |})
    rows.

Definition proj_of_frame (header : list string) (rows : list (list cell)) : list proj_row :=
  List.map
    (fun r =>
       {| proj_soc_code := standardize_soc_code (as_chr (field header r "soc_code"));
          change_percent := as_dbl (field header r "change_percent");
          base_year := as_dbl (field header r "base_year");
          projected_year := as_dbl (field header r "projected_year") |})
    rows.

Definition summary_header : list string :=
  ["program"; "occupation_title"; "employment"; "median_wage_annual"; "wage_index";
   "projected_growth_pct"; "growth_category"; "projection_period"].

Definition frame_of_summary (labor_summary : list summary_row) : list (list cell) :=
  List.map
    (fun r =>
       [Chr (program r); Chr (s_occupation_title r); Dbl (s_employment r);
        Dbl (s_median_wage_annual r); Dbl (wage_index r); Dbl (projected_growth_pct r);
        Chr (growth_category r); Dbl (projection_period r)])
    labor_summary.

(** Where the stage writes its table. *)
Definition summary_path (MARKET_CONFIG : market_config) : string :=
  file_path (output_tables MARKET_CONFIG) "market_labor_summary.csv".

Definition labor_market_trends_R (written_weights : weights_list)
    (session : option market_config) : M unit :=
  let* MARKET_CONFIG := ensure_config written_weights session in
  let OEWS_FILE := OEWS_FILE MARKET_CONFIG in
  let PROJ_FILE := PROJ_FILE MARKET_CONFIG in
  let* rebuild := should_rebuild MARKET_CONFIG "labor_market_trends" [OEWS_FILE; PROJ_FILE] in
  if negb rebuild then quit
  else
    let* oews_present := file_exists OEWS_FILE in
    let* _ :=
      (if negb oews_present then
         let template_path := oews_template_path MARKET_CONFIG in
         let* _ := write_csv template_path template_oews_header template_oews in
         stop ("BLS OEWS data file not found: " +:+ OEWS_FILE +:+ nl
               +:+ "A TEMPLATE file has been created: " +:+ template_path)
       else ret tt) in
    let* proj_present := file_exists PROJ_FILE in
    let* _ :=
      (if negb proj_present then
         let template_path := proj_template_path MARKET_CONFIG in
         let* _ := write_csv template_path template_proj_header template_proj in
         stop ("BLS Projections data file not found: " +:+ PROJ_FILE +:+ nl
               +:+ "A TEMPLATE file has been created: " +:+ template_path)
       else ret tt) in
    let* oews_df := read_csv OEWS_FILE in
    let* _ := validate_required_columns (fst oews_df) oews_required_columns
                "BLS OEWS data" " is missing required columns: " in
    let* proj_df := read_csv PROJ_FILE in
    let* _ := validate_required_columns (fst proj_df) proj_required_columns
                "BLS Projections data" " is missing required columns: " in
    let* _ := select_columns (fst proj_df) proj_selected_columns in
    let labor_summary :=
      compute_labor_market_summary
        (oews_of_frame (fst oews_df) (snd oews_df))
        (proj_of_frame (fst proj_df) (snd proj_df))
        build_shrs_soc_crosswalk in
    let* _ := write_dual_format MARKET_CONFIG summary_header
                (frame_of_summary labor_summary) "market_labor_summary" in
    let* _ := ggsave (file_path (output_figures MARKET_CONFIG)
                        "labor_market_growth_vs_wage.png") in
    save_cache_metadata MARKET_CONFIG "labor_market_trends" [OEWS_FILE; PROJ_FILE].

End LaborMarketTrends.

(** ** 02_credential_pressure.R *)

Module CredentialPressure.
Import RValue Script Config.

(** The columns of [credential_pressure.csv] the stage reads. *)
Record credential_row : Type := {
  program : character;
  licensure_required : character;
  exam_trend : character;
  pass_rate_recent : character;
  scope_of_practice_notes : character
}.

Definition allowed_values : list string := ["Up"; "Stable"; "Down"; "Unknown"].

(** [validate_exam_trends]: [TRUE] when no row has an [exam_trend] outside
    the allowed values (the script stops otherwise). *)
Definition exam_trends_valid (df : list credential_row) : bool :=
  Nat.eqb
    (length (List.filter (fun r => negb (chr_in (exam_trend r) allowed_values)) df))
    0.

Definition credential_risk_score_of (licensure_required exam_trend : character) : numeric :=
  case_when_num
    [ (and3 (chr_eq licensure_required "No") (chr_eq exam_trend "Unknown"), 0.2%Q);
      (and3 (chr_eq licensure_required "Yes") (chr_eq exam_trend "Stable"), 0.3%Q);
      (and3 (chr_eq licensure_required "Yes") (chr_eq exam_trend "Up"), 0.5%Q);
      (and3 (chr_eq licensure_required "Yes") (chr_eq exam_trend "Down"), 0.6%Q);
      (chr_eq exam_trend "Unknown", 0.4%Q);
      (TRUE, 0.3%Q) ].

Definition credential_risk_category_of (credential_risk_score : numeric) : character :=
  case_when
    [ (num_le credential_risk_score (Num 0.25), "Low");
      (num_le credential_risk_score (Num 0.45), "Moderate");
      (TRUE, "High") ].

(** A row of [credential_pressure_summary]. *)
Record summary_row : Type := {
  s_program : character;
  s_licensure_required : character;
  s_exam_trend : character;
  s_pass_rate_recent : character;
  credential_risk_score : numeric;
  credential_risk_category : character;
  s_scope_of_practice_notes : character
}.

Definition summarize_row (r : credential_row) : summary_row :=
  let score := credential_risk_score_of (licensure_required r) (exam_trend r) in
  {| s_program := program r;
     s_licensure_required := licensure_required r;
     s_exam_trend := exam_trend r;
     s_pass_rate_recent := pass_rate_recent r;
     credential_risk_score := score;
     credential_risk_category := credential_risk_category_of score;
     s_scope_of_practice_notes := scope_of_practice_notes r |}.

Definition credential_summary (credential_df : list credential_row) : list summary_row :=
  Dplyr.arrange
    (fun a b => desc_before (credential_risk_score a) (credential_risk_score b))
    (List.map summarize_row credential_df).

(** *** The script *)

Definition CREDENTIAL_FILE (MARKET_CONFIG : market_config) : string :=
  file_path (market_data_dir MARKET_CONFIG) "credential_pressure.csv".

Definition template_credential_header : list string :=
  ["program"; "licensure_required"; "exam_trend"; "pass_rate_recent";
   "scope_of_practice_notes"].

Definition template_credential : list (list cell) :=
  [ [chr "CSD_SLP"; chr "Yes"; chr "Stable"; chr "95%";
     chr "ASHA certification required; no recent scope changes"];
    [chr "CSD_AuD"; chr "Yes"; chr "Stable"; chr "92%";
     chr "State licensure required; telehealth expansion"];
    [chr "CSD_UG"; chr "No"; chr "Unknown"; chr "N/A"; chr "Pipeline program"];
    [chr "SMN_AT"; chr "Yes"; chr "Down"; chr "78%"; chr "BOC exam pass rates declining"];
    [chr "SMN_DN"; chr "Yes"; chr "Stable"; chr "88%"; chr "RDN credential required"];
    [chr "SMN_SS"; chr "No"; chr "Unknown"; chr "N/A"; chr "Varied career paths"];
    [chr "SMN_UG"; chr "No"; chr "Unknown"; chr "N/A"; chr "Pipeline program"] ].

Definition credential_template_path (MARKET_CONFIG : market_config) : string :=
  file_path (output_tables MARKET_CONFIG) "credential_pressure_TEMPLATE.csv".

Definition credential_required_columns : list string :=
  ["program"; "licensure_required"; "exam_trend"; "scope_of_practice_notes"].

Definition credential_selected_columns : list string :=
  ["program"; "licensure_required"; "exam_trend"; "pass_rate_recent";
   "scope_of_practice_notes"].

Definition credential_of_frame (header : list string) (rows : list (list cell))
    : list credential_row :=
  List.map
    (fun r =>
       {| program := as_chr (field header r "program");
          licensure_required := as_chr (field header r "licensure_required");
          exam_trend := as_chr (field header r "exam_trend");
          pass_rate_recent := as_chr (field header r "pass_rate_recent");
          scope_of_practice_notes := as_chr (field header r "scope_of_practice_notes") |})
    rows.

Definition summary_header : list string :=
  ["program"; "licensure_required"; "exam_trend"; "pass_rate_recent";
   "credential_risk_score"; "credential_risk_category"; "scope_of_practice_notes"].

Definition frame_of_summary (summary : list summary_row) : list (list cell) :=
  List.map
    (fun r =>
       [Chr (s_program r); Chr (s_licensure_required r); Chr (s_exam_trend r);
        Chr (s_pass_rate_recent r); Dbl (credential_risk_score r);
        Chr (credential_risk_category r); Chr (s_scope_of_practice_notes r)])
    summary.

Definition summary_path (MARKET_CONFIG : market_config) : string :=
  file_path (output_tables MARKET_CONFIG) "credential_pressure_summary.csv".

Definition credential_pressure_R (written_weights : weights_list)
    (session : option market_config) : M unit :=
  let* MARKET_CONFIG := ensure_config written_weights session in
  let CREDENTIAL_FILE := CREDENTIAL_FILE MARKET_CONFIG in
  let* rebuild := should_rebuild MARKET_CONFIG "credential_pressure" [CREDENTIAL_FILE] in
  if negb rebuild then quit
  else
    let* present := file_exists CREDENTIAL_FILE in
    let* _ :=
      (if negb present then
         let template_path := credential_template_path MARKET_CONFIG in
         let* _ := write_csv template_path template_credential_header template_credential in
         stop ("Credential pressure file not found: " +:+ CREDENTIAL_FILE +:+ nl
               +:+ "TEMPLATE created: " +:+ template_path)
       else ret tt) in
    let* credential_df := read_csv CREDENTIAL_FILE in
    let* _ := validate_required_columns (fst credential_df) credential_required_columns
                "Credential pressure data" " missing columns: " in
    let rows := credential_of_frame (fst credential_df) (snd credential_df) in
    let* _ :=
      (if negb (exam_trends_valid rows) then
         stop ("Invalid exam_trend values. Allowed: " +:+ String.concat ", " allowed_values)
       else ret tt) in
    let* _ := select_columns (fst credential_df) credential_selected_columns in
    let* _ := write_dual_format MARKET_CONFIG summary_header
                (frame_of_summary (credential_summary rows)) "credential_pressure_summary" in
    save_cache_metadata MARKET_CONFIG "credential_pressure" [CREDENTIAL_FILE].

End CredentialPressure.

(** ** 03_peer_program_supply.R *)

Module PeerProgramSupply.
Import RValue Script Config.

(** The columns of [ipeds_program_counts.csv] the stage reads. *)
Record ipeds_row : Type := {
  ipeds_region : character;
  ipeds_program_type : character;
  ipeds_num_programs : numeric;
  ipeds_total_completions : numeric
}.

Record crosswalk_row : Type := {
  cw_program : string;
  cw_program_type : string
}.

Definition build_shrs_ipeds_crosswalk : list crosswalk_row :=
  [ {| cw_program := "CSD_SLP"; cw_program_type := "Speech-Language" |};
    {| cw_program := "CSD_AuD"; cw_program_type := "Audiology" |};
    {| cw_program := "CSD_UG"; cw_program_type := "Speech-Language" |};
    {| cw_program := "SMN_AT"; cw_program_type := "Athletic Training" |};
    {| cw_program := "SMN_DN"; cw_program_type := "Dietetics" |};
    {| cw_program := "SMN_SS"; cw_program_type := "Exercise Science" |};
    {| cw_program := "SMN_UG"; cw_program_type := "Exercise Science" |} ].

(** A row of the crosswalk joined to the counts. *)
Record joined_row : Type := {
  j_program : character;
  j_program_type : character;
  region : character;
  num_programs : numeric;
  total_completions : numeric
}.

Definition join_row (c : crosswalk_row) (i : option ipeds_row) : joined_row :=
  {| j_program := Some (cw_program c);
     j_program_type := Some (cw_program_type c);
     region := match i with Some r => ipeds_region r | None => None end;
     num_programs := match i with Some r => ipeds_num_programs r | None => NA end;
     total_completions := match i with Some r => ipeds_total_completions r | None => NA end |}.

(** [min_rank(xs)] at a value [x] of [xs]: one more than the number of values
    below it; [NA] for [NA]. *)
Definition min_rank_at (xs : list numeric) (x : numeric) : numeric :=
  if is_na x then NA
  else num_of_nat (1 + length (List.filter (fun y => num_before y x) xs)).

(** [percent_rank(xs)] at a value of [xs]:
    [(min_rank(x) - 1) / (sum(!is.na(x)) - 1)]. *)
Definition percent_rank_at (xs : list numeric) (x : numeric) : numeric :=
  num_div (num_sub (min_rank_at xs x) (Num 1))
          (num_sub (num_of_nat (length (na_rm xs))) (Num 1)).

Definition saturation_index_of (saturation_percentile : numeric) : character :=
  case_when
    [ (num_le saturation_percentile (Num 0.33), "Low");
      (num_le saturation_percentile (Num 0.67), "Medium");
      (TRUE, "High") ].

(** A row of [peer_program_supply]. *)
Record supply_row : Type := {
  program : character;
  program_type : character;
  s_region : character;
  s_num_programs : numeric;
  s_total_completions : numeric;
  saturation_percentile : numeric;
  saturation_index : character
}.

(** The rows left by [filter(!is.na(region))]. *)
Definition with_region (ipeds_df : list ipeds_row) (crosswalk : list crosswalk_row)
    : list joined_row :=
  List.filter (fun r => negb (is_na_chr (region r)))
    (Dplyr.left_join (fun c => Some (cw_program_type c)) ipeds_program_type join_row
       crosswalk ipeds_df).

(** [group_by(region) %>% mutate(...)]: each row gets the percent rank of its
    [num_programs] among the rows of its region. *)
Definition rank_in_region (rows : list joined_row) (r : joined_row) : supply_row :=
  let percentile :=
    percent_rank_at (List.map num_programs (Dplyr.group_rows region rows r))
                    (num_programs r) in
  {| program := j_program r;
     program_type := j_program_type r;
     s_region := region r;
     s_num_programs := num_programs r;
     s_total_completions := total_completions r;
     saturation_percentile := percentile;
     saturation_index := saturation_index_of percentile |}.

Definition program_region_before (a b : supply_row) : bool :=
  chr_before (program a) (program b)
  || (bool_decide (program a = program b) && chr_before (s_region a) (s_region b)).

Definition peer_supply (ipeds_df : list ipeds_row) (crosswalk : list crosswalk_row)
    : list supply_row :=
  let rows := with_region ipeds_df crosswalk in
  Dplyr.arrange program_region_before (List.map (rank_in_region rows) rows).

(** *** The script *)

Definition IPEDS_FILE (MARKET_CONFIG : market_config) : string :=
  file_path (market_data_dir MARKET_CONFIG) "ipeds_program_counts.csv".

Definition template_ipeds_header : list string :=
  ["region"; "cip_code"; "program_type"; "num_programs"; "total_completions"; "data_year"].

Definition template_ipeds : list (list cell) :=
  [ [chr "Mid-Atlantic"; chr "510203"; chr "Speech-Language"; dbl 45; dbl 1820; dbl 2023];
    [chr "Mid-Atlantic"; chr "510202"; chr "Audiology"; dbl 12; dbl 380; dbl 2023];
    [chr "Mid-Atlantic"; chr "512308"; chr "Athletic Training"; dbl 38; dbl 980; dbl 2023];
    [chr "Mid-Atlantic"; chr "513101"; chr "Dietetics"; dbl 52; dbl 1450; dbl 2023];
    [chr "Mid-Atlantic"; chr "310505"; chr "Exercise Science"; dbl 78; dbl 2340; dbl 2023];
    [chr "Northeast"; chr "510203"; chr "Speech-Language"; dbl 62; dbl 2450; dbl 2023];
    [chr "Northeast"; chr "510202"; chr "Audiology"; dbl 18; dbl 520; dbl 2023];
    [chr "Northeast"; chr "512308"; chr "Athletic Training"; dbl 51; dbl 1340; dbl 2023];
    [chr "Northeast"; chr "513101"; chr "Dietetics"; dbl 68; dbl 1920; dbl 2023];
    [chr "Northeast"; chr "310505"; chr "Exercise Science"; dbl 95; dbl 3100; dbl 2023] ].

Definition ipeds_template_path (MARKET_CONFIG : market_config) : string :=
  file_path (output_tables MARKET_CONFIG) "ipeds_program_counts_TEMPLATE.csv".

Definition ipeds_required_columns : list string :=
  ["region"; "program_type"; "num_programs"; "total_completions"].

Definition ipeds_of_frame (header : list string) (rows : list (list cell)) : list ipeds_row :=
  List.map
    (fun r =>
       {| ipeds_region := as_chr (field header r "region");
          ipeds_program_type := as_chr (field header r "program_type");
          ipeds_num_programs := as_dbl (field header r "num_programs");
          ipeds_total_completions := as_dbl (field header r "total_completions") |})
    rows.

Definition supply_header : list string :=
  ["program"; "program_type"; "region"; "num_programs"; "total_completions";
   "saturation_percentile"; "saturation_index"].

Definition frame_of_supply (supply : list supply_row) : list (list cell) :=
  List.map
    (fun r =>
       [Chr (program r); Chr (program_type r); Chr (s_region r); Dbl (s_num_programs r);
        Dbl (s_total_completions r); Dbl (saturation_percentile r);
        Chr (saturation_index r)])
    supply.


Definition peer_program_supply_R (written_weights : weights_list)
    (session : option market_config) : M unit :=
  let* MARKET_CONFIG := ensure_config written_weights session in
  let IPEDS_FILE := IPEDS_FILE MARKET_CONFIG in
  let* rebuild := should_rebuild MARKET_CONFIG "peer_program_supply" [IPEDS_FILE] in
  if negb rebuild then quit
  else
    let* present := file_exists IPEDS_FILE in
    let* _ :=
      (if negb present then
         let template_path := ipeds_template_path MARKET_CONFIG in
         let* _ := write_csv template_path template_ipeds_header template_ipeds in
         stop ("IPEDS file not found: " +:+ IPEDS_FILE +:+ nl
               +:+ "TEMPLATE created: " +:+ template_path)
       else ret tt) in
    let* ipeds_df := read_csv IPEDS_FILE in
    let* _ := validate_required_columns (fst ipeds_df) ipeds_required_columns
                "IPEDS program counts data" " missing columns: " in
    let supply :=
      peer_supply (ipeds_of_frame (fst ipeds_df) (snd ipeds_df))
                  build_shrs_ipeds_crosswalk in
    let* _ := write_dual_format MARKET_CONFIG supply_header (frame_of_supply supply)
                "peer_program_supply" in
    let* _ := ggsave (file_path (output_figures MARKET_CONFIG)
                        "peer_program_supply_bars.png") in
    save_cache_metadata MARKET_CONFIG "peer_program_supply" [IPEDS_FILE].

End PeerProgramSupply.

(** ** 04_wage_vs_cost_context.R *)

Module WageVsCost.
Import RValue Script Config.

(** [labor_df %>% select(program, median_wage_annual, wage_index)] *)
Record labor_row : Type := {
  l_program : character;
  l_median_wage_annual : numeric;
  l_wage_index : numeric
}.

(** [tuition_df %>% select(program, total_program_cost, program_length_years,
    academic_year)] *)
Record tuition_row : Type := {
  t_program : character;
  t_total_program_cost : numeric;
  t_program_length_years : numeric;
  t_academic_year : character
}.

(** A row of [wage_cost], the join of the two. *)
Record wage_cost_row : Type := {
  wc_labor : labor_row;
  wc_tuition : option tuition_row
}.

Definition wc_total_program_cost (r : wage_cost_row) : numeric :=
  match wc_tuition r with Some t => t_total_program_cost t | None => NA end.

Definition wc_program_length_years (r : wage_cost_row) : numeric :=
  match wc_tuition r with Some t => t_program_length_years t | None => NA end.

Definition wc_academic_year (r : wage_cost_row) : character :=
  match wc_tuition r with Some t => t_academic_year t | None => None end.

Definition context_category_of (wage_to_cost_ratio : numeric) : character :=
  case_when
    [ (num_ge wage_to_cost_ratio (Num 1.2), "Favorable");
      (num_ge wage_to_cost_ratio (Num 0.9), "Moderate");
      (TRUE, "Challenging") ].

(** A row of [wage_vs_cost_context]. *)
Record context_row : Type := {
  program : character;
  median_wage_annual : numeric;
  total_program_cost : numeric;
  program_length_years : numeric;
  wage_to_cost_ratio : numeric;
  wage_index : numeric;
  tuition_index : numeric;
  context_category : character;
  academic_year : character
}.

Definition wage_cost (labor_df : list labor_row) (tuition_df : list tuition_row)
    : list wage_cost_row :=
  Dplyr.left_join l_program t_program
    (fun l t => {| wc_labor := l; wc_tuition := t |}) labor_df tuition_df.

Definition wage_cost_context (labor_df : list labor_row) (tuition_df : list tuition_row)
    : list context_row :=
  let wage_cost := wage_cost labor_df tuition_df in
  let mean_cost := mean_na_rm (List.map wc_total_program_cost wage_cost) in
  Dplyr.arrange
    (fun a b => desc_before (wage_to_cost_ratio a) (wage_to_cost_ratio b))
    (List.map
       (fun r =>
          let ratio := num_div (l_median_wage_annual (wc_labor r)) (wc_total_program_cost r) in
          {| program := l_program (wc_labor r);
             median_wage_annual := l_median_wage_annual (wc_labor r);
             total_program_cost := wc_total_program_cost r;
             program_length_years := wc_program_length_years r;
             wage_to_cost_ratio := ratio;
             wage_index := l_wage_index (wc_labor r);
             tuition_index := num_div (wc_total_program_cost r) mean_cost;
             context_category := context_category_of ratio;
             academic_year := wc_academic_year r |})
       wage_cost).

(** *** The script *)

Definition LABOR_SUMMARY_FILE (MARKET_CONFIG : market_config) : string :=
  file_path (output_tables MARKET_CONFIG) "market_labor_summary.csv".

Definition TUITION_FILE (MARKET_CONFIG : market_config) : string :=
  file_path (internal_data_dir MARKET_CONFIG) "tuition_program_level.csv".

Definition template_tuition_header : list string :=
  ["program"; "program_length_years"; "annual_tuition"; "total_program_cost";
   "academic_year"].

Definition template_tuition : list (list cell) :=
  [ [chr "CSD_SLP"; dbl 2.0; dbl 32500; dbl 65000; chr "2024-25"];
    [chr "CSD_AuD"; dbl 4.0; dbl 31200; dbl 124800; chr "2024-25"];
    [chr "CSD_UG"; dbl 4.0; dbl 20500; dbl 82000; chr "2024-25"];
    [chr "SMN_AT"; dbl 2.0; dbl 29800; dbl 59600; chr "2024-25"];
    [chr "SMN_DN"; dbl 2.0; dbl 28900; dbl 57800; chr "2024-25"];
    [chr "SMN_SS"; dbl 2.0; dbl 28900; dbl 57800; chr "2024-25"];
    [chr "SMN_UG"; dbl 4.0; dbl 20500; dbl 82000; chr "2024-25"] ].

Definition tuition_template_path (MARKET_CONFIG : market_config) : string :=
  file_path (output_tables MARKET_CONFIG) "tuition_program_level_TEMPLATE.csv".

Definition tuition_required_columns : list string := ["program"; "total_program_cost"].

Definition tuition_selected_columns : list string :=
  ["program"; "total_program_cost"; "program_length_years"; "academic_year"].

Definition labor_selected_columns : list string :=
  ["program"; "median_wage_annual"; "wage_index"].

Definition labor_of_frame (header : list string) (rows : list (list cell)) : list labor_row :=
  List.map
    (fun r =>
       {| l_program := as_chr (field header r "program");
          l_median_wage_annual := as_dbl (field header r "median_wage_annual");
          l_wage_index := as_dbl (field header r "wage_index") |})
    rows.

Definition tuition_of_frame (header : list string) (rows : list (list cell))
    : list tuition_row :=
  List.map
    (fun r =>
       {| t_program := as_chr (field header r "program");
          t_total_program_cost := as_dbl (field header r "total_program_cost");
          t_program_length_years := as_dbl (field header r "program_length_years");
          t_academic_year := as_chr (field header r "academic_year") |})
    rows.

Definition context_header : list string :=
  ["program"; "median_wage_annual"; "total_program_cost"; "program_length_years";
   "wage_to_cost_ratio"; "wage_index"; "tuition_index"; "context_category";
   "academic_year"].

Definition frame_of_context (context : list context_row) : list (list cell) :=
  List.map
    (fun r =>
       [Chr (program r); Dbl (median_wage_annual r); Dbl (total_program_cost r);
        Dbl (program_length_years r); Dbl (wage_to_cost_ratio r); Dbl (wage_index r);
        Dbl (tuition_index r); Chr (context_category r); Chr (academic_year r)])
    context.


Definition wage_vs_cost_context_R (written_weights : weights_list)
    (session : option market_config) : M unit :=
  let* MARKET_CONFIG := ensure_config written_weights session in
  let LABOR_SUMMARY_FILE := LABOR_SUMMARY_FILE MARKET_CONFIG in
  let TUITION_FILE := TUITION_FILE MARKET_CONFIG in
  let* rebuild := should_rebuild MARKET_CONFIG "wage_vs_cost_context"
                    [LABOR_SUMMARY_FILE; TUITION_FILE] in
  if negb rebuild then quit
  else
    let* labor_present := file_exists LABOR_SUMMARY_FILE in
    let* _ :=
      (if negb labor_present then
         stop ("Labor market summary not found: " +:+ LABOR_SUMMARY_FILE +:+ nl
               +:+ "Please run 01_labor_market_trends.R first")
       else ret tt) in
    let* tuition_present := file_exists TUITION_FILE in
    let* _ :=
      (if negb tuition_present then
         let template_path := tuition_template_path MARKET_CONFIG in
         let* _ := write_csv template_path template_tuition_header template_tuition in
         stop ("Tuition file not found: " +:+ TUITION_FILE +:+ nl
               +:+ "TEMPLATE created: " +:+ template_path)
       else ret tt) in
    let* labor_df := read_csv LABOR_SUMMARY_FILE in
    let* tuition_df := read_csv TUITION_FILE in
    let* _ := validate_required_columns (fst tuition_df) tuition_required_columns
                "Tuition data" " missing columns: " in
    let* _ := select_columns (fst labor_df) labor_selected_columns in
    let* _ := select_columns (fst tuition_df) tuition_selected_columns in
    let context :=
      wage_cost_context (labor_of_frame (fst labor_df) (snd labor_df))
                        (tuition_of_frame (fst tuition_df) (snd tuition_df)) in
    let* _ := write_dual_format MARKET_CONFIG context_header (frame_of_context context)
                "wage_vs_cost_context" in
    let* _ := ggsave (file_path (output_figures MARKET_CONFIG) "wage_vs_cost_context.png") in
    save_cache_metadata MARKET_CONFIG "wage_vs_cost_context"
      [LABOR_SUMMARY_FILE; TUITION_FILE].

End WageVsCost.

(** ** 05_market_risk_index.R *)

Module MarketRiskIndex.
Import RValue Script Config.

(** [labor_df %>% select(program, projected_growth_pct, wage_index)] *)
Record labor_row : Type := {
  l_program : character;
  l_projected_growth_pct : numeric;
  l_wage_index : numeric
}.

(** The columns of [credential_df] and of [peer_df] the stage reads. *)
Record credential_row : Type := {
  c_program : character;
  c_credential_risk_score : numeric
}.

Record peer_row : Type := {
  p_program : character;
  p_saturation_percentile : numeric
}.

Definition labor_demand_risk_of (projected_growth_pct : numeric) : numeric :=
  case_when_num
    [ (Some (is_na projected_growth_pct), 0.5%Q);
      (num_ge projected_growth_pct (Num 15), 0.1%Q);
      (num_ge projected_growth_pct (Num 8), 0.3%Q);
      (num_ge projected_growth_pct (Num 0), 0.6%Q);
      (TRUE, 0.9%Q) ].

(** [1 - pmin(wage_index / max(wage_index, na.rm = TRUE), 1.0)], the maximum
    being that of the whole column. *)
Definition wage_level_risk_of (max_wage_index wage_index : numeric) : numeric :=
  num_sub (Num 1) (pmin (num_div wage_index max_wage_index) (Num 1.0)).

Record labor_risk_row : Type := {
  lr_program : character;
  lr_labor_demand_risk : numeric;
  lr_wage_level_risk : numeric
}.

Definition labor_risk (labor_df : list labor_row) : list labor_risk_row :=
  let max_wage_index := max_na_rm (List.map l_wage_index labor_df) in
  List.map
    (fun r =>
       {| lr_program := l_program r;
          lr_labor_demand_risk := labor_demand_risk_of (l_projected_growth_pct r);
          lr_wage_level_risk := wage_level_risk_of max_wage_index (l_wage_index r) |})
    labor_df.

Record credential_risk_row : Type := {
  cr_program : character;
  cr_credential_pressure_risk : numeric
}.

Definition credential_risk (credential_df : list credential_row) : list credential_risk_row :=
  List.map
    (fun r => {| cr_program := c_program r;
                 cr_credential_pressure_risk := c_credential_risk_score r |})
    credential_df.

Record peer_risk_row : Type := {
  pr_program : character;
  pr_peer_saturation_risk : numeric
}.

(** [group_by(program) %>% summarize(mean(saturation_percentile, na.rm = TRUE))]:
    one row per program, in the order of the keys. *)
Definition peer_risk (peer_df : list peer_row) : list peer_risk_row :=
  List.map
    (fun key =>
       {| pr_program := key;
          pr_peer_saturation_risk :=
            mean_na_rm
              (List.map p_saturation_percentile
                 (List.filter (fun r => bool_decide (p_program r = key)) peer_df)) |})
    (Dplyr.arrange chr_before (Dplyr.group_keys p_program peer_df)).

(** A row of the three-way join, before [mutate]. *)
Record joined_row : Type := {
  j_labor : labor_risk_row;
  j_credential : option credential_risk_row;
  j_peer : option peer_risk_row
}.

Definition j_credential_pressure_risk (r : joined_row) : numeric :=
  match j_credential r with Some c => cr_credential_pressure_risk c | None => NA end.

Definition j_peer_saturation_risk (r : joined_row) : numeric :=
  match j_peer r with Some p => pr_peer_saturation_risk p | None => NA end.

Definition join_components (labor_risk : list labor_risk_row)
    (credential_risk : list credential_risk_row) (peer_risk : list peer_risk_row)
    : list joined_row :=
  Dplyr.left_join
    (fun lc : labor_risk_row * option credential_risk_row => lr_program (fst lc))
    pr_program
    (fun lc p => {| j_labor := fst lc; j_credential := snd lc; j_peer := p |})
    (Dplyr.left_join lr_program cr_program (fun l c => (l, c)) labor_risk credential_risk)
    peer_risk.

(** The weighted sum of the four components. *)
Definition market_risk_index_of (weights : weights_list)
    (labor_demand_risk wage_level_risk peer_saturation_risk credential_pressure_risk : numeric)
    : numeric :=
  num_add
    (num_add
       (num_add (num_mul labor_demand_risk (Num (labor_demand weights)))
                (num_mul wage_level_risk (Num (wage_level weights))))
       (num_mul peer_saturation_risk (Num (peer_saturation weights))))
    (num_mul credential_pressure_risk (Num (credential_pressure weights))).

Definition risk_category_of (market_risk_index : numeric) : character :=
  case_when
    [ (num_le market_risk_index (Num 0.35), "Low Risk");
      (num_le market_risk_index (Num 0.55), "Moderate Risk");
      (TRUE, "High Risk") ].

(** A row of [market_risk]. *)
Record risk_row : Type := {
  program : character;
  market_risk_index : numeric;
  risk_category : character;
  labor_demand_risk : numeric;
  wage_level_risk : numeric;
  peer_saturation_risk : numeric;
  credential_pressure_risk : numeric
}.

Definition mutate_risk (weights : weights_list) (r : joined_row) : risk_row :=
  let index :=
    market_risk_index_of weights
      (lr_labor_demand_risk (j_labor r)) (lr_wage_level_risk (j_labor r))
      (j_peer_saturation_risk r) (j_credential_pressure_risk r) in
  {| program := lr_program (j_labor r);
     market_risk_index := index;
     risk_category := risk_category_of index;
     labor_demand_risk := lr_labor_demand_risk (j_labor r);
     wage_level_risk := lr_wage_level_risk (j_labor r);
     peer_saturation_risk := j_peer_saturation_risk r;
     credential_pressure_risk := j_credential_pressure_risk r |}.

Definition market_risk (weights : weights_list) (labor_df : list labor_row)
    (credential_df : list credential_row) (peer_df : list peer_row) : list risk_row :=
  Dplyr.arrange
    (fun a b => desc_before (market_risk_index a) (market_risk_index b))
    (List.map (mutate_risk weights)
       (join_components (labor_risk labor_df) (credential_risk credential_df)
          (peer_risk peer_df))).

(** *** The script *)

Definition LABOR_SUMMARY_FILE (MARKET_CONFIG : market_config) : string :=
  file_path (output_tables MARKET_CONFIG) "market_labor_summary.csv".

Definition CREDENTIAL_FILE (MARKET_CONFIG : market_config) : string :=
  file_path (output_tables MARKET_CONFIG) "credential_pressure_summary.csv".

Definition PEER_SUPPLY_FILE (MARKET_CONFIG : market_config) : string :=
  file_path (output_tables MARKET_CONFIG) "peer_program_supply.csv".

Definition labor_of_frame (header : list string) (rows : list (list cell)) : list labor_row :=
  List.map
    (fun r =>
       {| l_program := as_chr (field header r "program");
          l_projected_growth_pct := as_dbl (field header r "projected_growth_pct");
          l_wage_index := as_dbl (field header r "wage_index") |})
    rows.

Definition credential_of_frame (header : list string) (rows : list (list cell))
    : list credential_row :=
  List.map
    (fun r =>
       {| c_program := as_chr (field header r "program");
          c_credential_risk_score := as_dbl (field header r "credential_risk_score") |})
    rows.

Definition peer_of_frame (header : list string) (rows : list (list cell)) : list peer_row :=
  List.map
    (fun r =>
       {| p_program := as_chr (field header r "program");
          p_saturation_percentile := as_dbl (field header r "saturation_percentile") |})
    rows.

(** The loop over [required_files]: stop at the first one that is missing. *)
Fixpoint require_files (required_files : list (string * string)) : M unit :=
  match required_files with
  | [] => ret tt
  | (file_type, path) :: rest =>
      let* present := file_exists path in
      if negb present then
        stop (file_type +:+ " file not found: " +:+ path +:+ nl
              +:+ "Please run the corresponding script first")
      else require_files rest
  end.

Definition risk_header : list string :=
  ["program"; "market_risk_index"; "risk_category"; "labor_demand_risk";
   "wage_level_risk"; "peer_saturation_risk"; "credential_pressure_risk";
   "index_version"; "generated_date"].

(** [market_risk_final %>% select(-disclaimer)] *)
Definition frame_of_risk (generated_date : string) (risk : list risk_row) : list (list cell) :=
  List.map
    (fun r =>
       [Chr (program r); Dbl (market_risk_index r); Chr (risk_category r);
        Dbl (labor_demand_risk r); Dbl (wage_level_risk r); Dbl (peer_saturation_risk r);
        Dbl (credential_pressure_risk r); chr "1.0"; chr generated_date])
    risk.

Definition weights_doc (weights : weights_list) : list (list cell) :=
  [ [chr "Labor Demand"; dbl (labor_demand weights);
     chr "BLS 10-year employment growth outlook"];
    [chr "Wage Level"; dbl (wage_level weights); chr "Median wage relative to benchmark"];
    [chr "Peer Saturation"; dbl (peer_saturation weights);
     chr "Regional program supply density"];
    [chr "Credential Pressure"; dbl (credential_pressure weights);
     chr "Licensure and exam uncertainty"] ].

Definition risk_path (MARKET_CONFIG : market_config) : string :=
  file_path (output_tables MARKET_CONFIG) "market_risk_index.csv".

Definition market_risk_index_R (written_weights : weights_list)
    (session : option market_config) : M unit :=
  let* MARKET_CONFIG := ensure_config written_weights session in
  let LABOR_SUMMARY_FILE := LABOR_SUMMARY_FILE MARKET_CONFIG in
  let CREDENTIAL_FILE := CREDENTIAL_FILE MARKET_CONFIG in
  let PEER_SUPPLY_FILE := PEER_SUPPLY_FILE MARKET_CONFIG in
  let* rebuild := should_rebuild MARKET_CONFIG "market_risk_index"
                    [LABOR_SUMMARY_FILE; CREDENTIAL_FILE; PEER_SUPPLY_FILE] in
  if negb rebuild then quit
  else
    let* _ := require_files [("labor", LABOR_SUMMARY_FILE); ("credential", CREDENTIAL_FILE);
                             ("peer", PEER_SUPPLY_FILE)] in
    let* labor_df := read_csv LABOR_SUMMARY_FILE in
    let* credential_df := read_csv CREDENTIAL_FILE in
    let* peer_df := read_csv PEER_SUPPLY_FILE in
    let* _ := select_columns (fst labor_df) ["program"; "projected_growth_pct"; "wage_index"] in
    let* _ := select_columns (fst credential_df) ["program"; "credential_risk_score"] in
    let* _ := select_columns (fst peer_df) ["program"; "saturation_percentile"] in
    let weights := risk_weights MARKET_CONFIG in
    let risk :=
      market_risk weights
        (labor_of_frame (fst labor_df) (snd labor_df))
        (credential_of_frame (fst credential_df) (snd credential_df))
        (peer_of_frame (fst peer_df) (snd peer_df)) in
    let* generated_date := sys_date in
    let* _ := write_dual_format MARKET_CONFIG risk_header (frame_of_risk generated_date risk)
                "market_risk_index" in
    let* _ := write_csv (file_path (output_tables MARKET_CONFIG) "market_risk_index_weights.csv")
                ["component"; "weight"; "description"] (weights_doc weights) in
    save_cache_metadata MARKET_CONFIG "market_risk_index"
      [LABOR_SUMMARY_FILE; CREDENTIAL_FILE; PEER_SUPPLY_FILE].

End MarketRiskIndex.

(** ** The externally supplied inputs and the stages that read them *)

Module Stages.
Import RValue Script Config.

Inductive external_input : Type :=
| BLS_OEWS
| BLS_PROJECTIONS
| CREDENTIAL_PRESSURE
| IPEDS_PROGRAM_COUNTS
| TUITION_PROGRAM_LEVEL.

Definition input_path (MARKET_CONFIG : market_config) (e : external_input) : string :=
  match e with
  | BLS_OEWS => LaborMarketTrends.OEWS_FILE MARKET_CONFIG
  | BLS_PROJECTIONS => LaborMarketTrends.PROJ_FILE MARKET_CONFIG
  | CREDENTIAL_PRESSURE => CredentialPressure.CREDENTIAL_FILE MARKET_CONFIG
  | IPEDS_PROGRAM_COUNTS => PeerProgramSupply.IPEDS_FILE MARKET_CONFIG
  | TUITION_PROGRAM_LEVEL => WageVsCost.TUITION_FILE MARKET_CONFIG
  end.

Definition template_path (MARKET_CONFIG : market_config) (e : external_input) : string :=
  match e with
  | BLS_OEWS => LaborMarketTrends.oews_template_path MARKET_CONFIG
  | BLS_PROJECTIONS => LaborMarketTrends.proj_template_path MARKET_CONFIG
  | CREDENTIAL_PRESSURE => CredentialPressure.credential_template_path MARKET_CONFIG
  | IPEDS_PROGRAM_COUNTS => PeerProgramSupply.ipeds_template_path MARKET_CONFIG
  | TUITION_PROGRAM_LEVEL => WageVsCost.tuition_template_path MARKET_CONFIG
  end.

Definition template (e : external_input) : file_data :=
  match e with
  | BLS_OEWS =>
      Csv LaborMarketTrends.template_oews_header LaborMarketTrends.template_oews
  | BLS_PROJECTIONS =>
      Csv LaborMarketTrends.template_proj_header LaborMarketTrends.template_proj
  | CREDENTIAL_PRESSURE =>
      Csv CredentialPressure.template_credential_header CredentialPressure.template_credential
  | IPEDS_PROGRAM_COUNTS =>
      Csv PeerProgramSupply.template_ipeds_header PeerProgramSupply.template_ipeds
  | TUITION_PROGRAM_LEVEL =>
      Csv WageVsCost.template_tuition_header WageVsCost.template_tuition
  end.



Definition script_name (e : external_input) : string :=
  match e with
  | BLS_OEWS | BLS_PROJECTIONS => "labor_market_trends"
  | CREDENTIAL_PRESSURE => "credential_pressure"
  | IPEDS_PROGRAM_COUNTS => "peer_program_supply"
  | TUITION_PROGRAM_LEVEL => "wage_vs_cost_context"
  end.




End Stages.

(** ** The stages run in order on one set of inputs *)

Module Pipeline.
Import RValue Script Config.

(** The five externally supplied tables, each a header and rows. *)
Record inputs : Type := {
  bls_oews : list string * list (list cell);
  bls_projections : list string * list (list cell);
  credential_pressure : list string * list (list cell);
  ipeds_program_counts : list string * list (list cell);
  tuition_program_level : list string * list (list cell)
}.

Definition oews_df (i : inputs) : list LaborMarketTrends.oews_row :=
  LaborMarketTrends.oews_of_frame (fst (bls_oews i)) (snd (bls_oews i)).

Definition proj_df (i : inputs) : list LaborMarketTrends.proj_row :=
  LaborMarketTrends.proj_of_frame (fst (bls_projections i)) (snd (bls_projections i)).

Definition credential_df (i : inputs) : list CredentialPressure.credential_row :=
  CredentialPressure.credential_of_frame
    (fst (credential_pressure i)) (snd (credential_pressure i)).

Definition ipeds_df (i : inputs) : list PeerProgramSupply.ipeds_row :=
  PeerProgramSupply.ipeds_of_frame
    (fst (ipeds_program_counts i)) (snd (ipeds_program_counts i)).

Definition tuition_df (i : inputs) : list WageVsCost.tuition_row :=
  WageVsCost.tuition_of_frame
    (fst (tuition_program_level i)) (snd (tuition_program_level i)).

(** Stage 1 to 3: the tables written from the external inputs. *)
Definition market_labor_summary (i : inputs) : list LaborMarketTrends.summary_row :=
  LaborMarketTrends.compute_labor_market_summary (oews_df i) (proj_df i)
    LaborMarketTrends.build_shrs_soc_crosswalk.

Definition credential_pressure_summary (i : inputs) : list CredentialPressure.summary_row :=
  CredentialPressure.credential_summary (credential_df i).

Definition peer_program_supply (i : inputs) : list PeerProgramSupply.supply_row :=
  PeerProgramSupply.peer_supply (ipeds_df i) PeerProgramSupply.build_shrs_ipeds_crosswalk.

(** Stage 4 and 5 read the tables of the earlier stages back from their CSV
    files. *)
Definition wage_vs_cost_context (i : inputs) : list WageVsCost.context_row :=
  WageVsCost.wage_cost_context
    (WageVsCost.labor_of_frame LaborMarketTrends.summary_header
       (LaborMarketTrends.frame_of_summary (market_labor_summary i)))
    (tuition_df i).

Definition market_risk_index (weights : weights_list) (i : inputs)
    : list MarketRiskIndex.risk_row :=
  MarketRiskIndex.market_risk weights
    (MarketRiskIndex.labor_of_frame LaborMarketTrends.summary_header
       (LaborMarketTrends.frame_of_summary (market_labor_summary i)))
    (MarketRiskIndex.credential_of_frame CredentialPressure.summary_header
       (CredentialPressure.frame_of_summary (credential_pressure_summary i)))
    (MarketRiskIndex.peer_of_frame PeerProgramSupply.supply_header
       (PeerProgramSupply.frame_of_supply (peer_program_supply i))).

(** *** Valid inputs

    What the stages take for granted about the tables they are given. *)









(** The inputs the scripts' own templates stand for: the example rows they
    write out when a file is missing. *)
Definition template_inputs : inputs :=
  {| bls_oews :=
       (LaborMarketTrends.template_oews_header, LaborMarketTrends.template_oews);
     bls_projections :=
       (LaborMarketTrends.template_proj_header, LaborMarketTrends.template_proj);
     credential_pressure :=
       (CredentialPressure.template_credential_header,
        CredentialPressure.template_credential);
     ipeds_program_counts :=
       (PeerProgramSupply.template_ipeds_header, PeerProgramSupply.template_ipeds);
     tuition_program_level :=
       (WageVsCost.template_tuition_header, WageVsCost.template_tuition) |}.

End Pipeline.

(** ** The same arithmetic on IEEE doubles

    The thresholds and the weighted sum once more, on binary64 values as R
    computes them, for the worked examples of the specification. *)

Module Binary64.

#[local] Set Warnings "-inexact-float".

(** [is.na(x)] of a double read from a file: [NA_real_] is a NaN. *)
Definition growth_category_of (change_percent : float) : string :=
  if PrimFloat.is_nan change_percent then "Unknown"
  else if PrimFloat.leb 15 change_percent then "High Growth"
  else if PrimFloat.leb 8 change_percent then "Moderate Growth"
  else if PrimFloat.leb 0 change_percent then "Slow Growth"
  else "Decline".

Definition credential_risk_category_of (credential_risk_score : float) : string :=
  if PrimFloat.leb credential_risk_score 0.25 then "Low"
  else if PrimFloat.leb credential_risk_score 0.45 then "Moderate"
  else "High".

(** The default weights, in the order labor demand, wage level, peer
    saturation, credential pressure. *)
Definition market_risk_index_of
    (labor_demand_risk wage_level_risk peer_saturation_risk credential_pressure_risk : float)
    : float :=
  (labor_demand_risk * 0.35 + wage_level_risk * 0.25 + peer_saturation_risk * 0.20
   + credential_pressure_risk * 0.20)%float.

Definition risk_category_of (market_risk_index : float) : string :=
  if PrimFloat.leb market_risk_index 0.35 then "Low Risk"
  else if PrimFloat.leb market_risk_index 0.55 then "Moderate Risk"
  else "High Risk".

(** [abs(sum(unlist(risk_weights)) - 1.0) > 0.001] for the default weights. *)
Definition default_weights_off : bool :=
  PrimFloat.ltb 0.001 (PrimFloat.abs (0.35 + 0.25 + 0.20 + 0.20 - 1.0))%float.

End Binary64.

(** ** The vocabulary of the specification *)

Module Spec.
Import RValue Script Config.
Local Open Scope Q_scope.

(** [x] is the finite number [q]. *)
Definition is_num (x : numeric) (q : Q) : Prop :=
  match x with Num p => p == q | _ => False end.




(** The lookup on (licensure_required, exam_trend) as the specification
    gives it: an ordered list of cases, the first that applies deciding. *)
Definition credential_lookup (licensure_required exam_trend : character) : Q :=
  if decide (licensure_required = Some "No" /\ exam_trend = Some "Unknown") then 0.2
  else if decide (licensure_required = Some "Yes" /\ exam_trend = Some "Stable") then 0.3
  else if decide (licensure_required = Some "Yes" /\ exam_trend = Some "Up") then 0.5
  else if decide (licensure_required = Some "Yes" /\ exam_trend = Some "Down") then 0.6
  else if decide (exam_trend = Some "Unknown") then 0.4
  else 0.3.

(** The three credential categories by threshold. *)
Definition credential_bucket (score : Q) : string :=
  if Qle_bool score 0.25 then "Low"
  else if Qle_bool score 0.45 then "Moderate"
  else "High".


(** The pairs (licensure_required, exam_trend) that one of the explicit
    cases of the lookup names, as opposed to its catch-all. *)
Definition explicit_case (licensure_required : character) (exam_trend : string) : Prop :=
  (licensure_required = Some "No" /\ exam_trend = "Unknown")
  \/ (licensure_required = Some "Yes" /\ exam_trend = "Stable")
  \/ (licensure_required = Some "Yes" /\ exam_trend = "Up")
  \/ (licensure_required = Some "Yes" /\ exam_trend = "Down")
  \/ exam_trend = "Unknown".

(** The cache record of a stage, when the stage's cache file holds one. *)
Definition cache_record (MARKET_CONFIG : market_config) (script_name : string)
    (w : world) : option (gmap string string) :=
  match data <$> files w !! cache_file_of MARKET_CONFIG script_name with
  | Some (Json _ _ input_files) => Some input_files
  | _ => None
  end.

(** Nothing stands in the way of reading the cache: a rebuild is forced, or
    there is no cache file, or the cache file holds a record. *)
Definition cache_readable (MARKET_CONFIG : market_config) (script_name : string)
    (w : world) : Prop :=
  FORCE_REBUILD MARKET_CONFIG = true
  \/ files w !! cache_file_of MARKET_CONFIG script_name = None
  \/ is_Some (cache_record MARKET_CONFIG script_name w).

(** An input file is missing, has no recorded time stamp, or its recorded
    time stamp differs from the one observed now. *)
Definition input_stale (w : world) (recorded : gmap string string) (f : string) : Prop :=
  files w !! f = None
  \/ recorded !! f = None
  \/ recorded !! f <> (mtime <$> files w !! f).

(** When the specification wants a rebuild. *)
Definition rebuild_needed (MARKET_CONFIG : market_config) (script_name : string)
    (input_files : list string) (w : world) : Prop :=
  FORCE_REBUILD MARKET_CONFIG = true
  \/ files w !! cache_file_of MARKET_CONFIG script_name = None
  \/ exists recorded,
       cache_record MARKET_CONFIG script_name w = Some recorded
       /\ exists f, In f input_files /\ input_stale w recorded f.

(** The two sources of the data root. *)
Definition env_resolves (w : world) : Prop :=
  env_SHRS_DATA_ROOT w <> "" /\ env_SHRS_DATA_ROOT w ∈ dirs w.

Definition config_file_resolves (w : world) (d : string) : Prop :=
  data <$> files w !! "scripts/config/data_paths.R" = Some (RSource (Some d))
  /\ d ∈ dirs w.





(** A world with nothing in it: no environment variable, no directory, no
    file. *)
Definition empty_world : world :=
  {| env_SHRS_DATA_ROOT := ""; dirs := ∅; files := ∅; clock := "" |}.

(** A configuration as the script builds it for the data root [/data]. *)
Definition example_config : market_config :=
  {| data_root := "/data";
     market_data_dir := "/data/market";
     internal_data_dir := "/data/internal";
     output_tables := "output/tables";
     output_figures := "output/figures";
     output_reports := "output/reports";
     cache_dir := "output/.cache";
     FORCE_REBUILD := false;
     programs := ["CSD_SLP"; "CSD_AuD"; "CSD_UG"; "SMN_AT"; "SMN_DN"; "SMN_SS"; "SMN_UG"];
     risk_weights := default_risk_weights |}.


(** [msg] contains [s]. *)
Definition mentions (msg s : string) : Prop :=
  exists before after, msg = before +:+ s +:+ after.

(** The rows of the peer supply table that belong to a region, and their
    program counts. *)
Definition region_rows (g : character) (supply : list PeerProgramSupply.supply_row)
    : list PeerProgramSupply.supply_row :=
  List.filter (fun r => bool_decide (PeerProgramSupply.s_region r = g)) supply.

Definition region_counts (g : character) (supply : list PeerProgramSupply.supply_row)
    : list numeric :=
  List.map PeerProgramSupply.s_num_programs (region_rows g supply).




(** How many of the counts [xs] are strictly below [x]. *)
Definition below (xs : list numeric) (x : numeric) : nat :=
  length (List.filter (fun y => num_before y x) xs).

(** How many of the counts [xs] are present and not strictly below [x]. *)
Definition not_below (xs : list numeric) (x : numeric) : nat :=
  length (List.filter (fun y => negb (is_na y) && negb (num_before y x)) xs).

(** The five stages, each started in a fresh session, in the order the
    README gives. *)
Definition run_all_stages (written_weights : weights_list) : M unit :=
  let* _ := LaborMarketTrends.labor_market_trends_R written_weights None in
  let* _ := CredentialPressure.credential_pressure_R written_weights None in
  let* _ := PeerProgramSupply.peer_program_supply_R written_weights None in
  let* _ := WageVsCost.wage_vs_cost_context_R written_weights None in
  MarketRiskIndex.market_risk_index_R written_weights None.

(** A data root [/data] that holds the five inputs, each with the rows of
    its template. *)
Definition template_world : world :=
  {| env_SHRS_DATA_ROOT := "/data";
     dirs := {["/data"]};
     files :=
       list_to_map
         (List.map
            (fun e =>
               (Stages.input_path example_config e,
                {| mtime := "2026-01-03 08:30:00"; data := Stages.template e |}))
            [Stages.BLS_OEWS; Stages.BLS_PROJECTIONS; Stages.CREDENTIAL_PRESSURE;
             Stages.IPEDS_PROGRAM_COUNTS; Stages.TUITION_PROGRAM_LEVEL]);
     clock := "2026-01-04 12:00:00" |}.


End Spec.

(** ** The five stages as runs *)

Module Runs.
Import RValue Script Config.

Inductive stage : Type :=
| LABOR_MARKET_TRENDS
| CREDENTIAL_PRESSURE
| PEER_PROGRAM_SUPPLY
| WAGE_VS_COST_CONTEXT
| MARKET_RISK_INDEX.

Definition stage_script (s : stage) : weights_list -> option market_config -> M unit :=
  match s with
  | LABOR_MARKET_TRENDS => LaborMarketTrends.labor_market_trends_R
  | CREDENTIAL_PRESSURE => CredentialPressure.credential_pressure_R
  | PEER_PROGRAM_SUPPLY => PeerProgramSupply.peer_program_supply_R
  | WAGE_VS_COST_CONTEXT => WageVsCost.wage_vs_cost_context_R
  | MARKET_RISK_INDEX => MarketRiskIndex.market_risk_index_R
  end.

(** The name a stage hands to [should_rebuild] and [save_cache_metadata]. *)
Definition stage_name (s : stage) : string :=
  match s with
  | LABOR_MARKET_TRENDS => "labor_market_trends"
  | CREDENTIAL_PRESSURE => "credential_pressure"
  | PEER_PROGRAM_SUPPLY => "peer_program_supply"
  | WAGE_VS_COST_CONTEXT => "wage_vs_cost_context"
  | MARKET_RISK_INDEX => "market_risk_index"
  end.

(** The input files a stage hands to them. *)
Definition stage_inputs (MARKET_CONFIG : market_config) (s : stage) : list string :=
  match s with
  | LABOR_MARKET_TRENDS =>
      [LaborMarketTrends.OEWS_FILE MARKET_CONFIG; LaborMarketTrends.PROJ_FILE MARKET_CONFIG]
  | CREDENTIAL_PRESSURE => [CredentialPressure.CREDENTIAL_FILE MARKET_CONFIG]
  | PEER_PROGRAM_SUPPLY => [PeerProgramSupply.IPEDS_FILE MARKET_CONFIG]
  | WAGE_VS_COST_CONTEXT =>
      [WageVsCost.LABOR_SUMMARY_FILE MARKET_CONFIG; WageVsCost.TUITION_FILE MARKET_CONFIG]
  | MARKET_RISK_INDEX =>
      [MarketRiskIndex.LABOR_SUMMARY_FILE MARKET_CONFIG;
       MarketRiskIndex.CREDENTIAL_FILE MARKET_CONFIG;
       MarketRiskIndex.PEER_SUPPLY_FILE MARKET_CONFIG]
  end.

(** A column sorted as [arrange(desc(x))] leaves it: no value is above one
    that stands earlier, and the missing values come last. *)
Definition descending (xs : list numeric) : Prop :=
  ForallOrdPairs (fun x y => y = NA \/ num_le y x = Some true) xs.

End Runs.

(** * Properties *)

(** ** Table verbs *)

Section DplyrFacts.
Context {A : Type} (before : A -> A -> bool).

Lemma arrange_insert_In (x y : A) (l : list A) :
  In y (Dplyr.arrange_insert before x l) <-> y = x \/ In y l.
Proof.
  induction l as [|z l IH]; simpl.
  - intuition congruence.
  - destruct (before z x); simpl; rewrite ?IH; intuition congruence.
Qed.

Lemma arrange_In (y : A) (l : list A) :
  In y (Dplyr.arrange before l) <-> In y l.
Proof.
  induction l as [|x l IH]; simpl; [tauto|].
  rewrite arrange_insert_In, IH. intuition congruence.
Qed.

Lemma arrange_insert_length (x : A) (l : list A) :
  length (Dplyr.arrange_insert before x l) = S (length l).
Proof.
  induction l as [|z l IH]; simpl; [reflexivity|].
  destruct (before z x); simpl; [rewrite IH|]; reflexivity.
Qed.

Lemma arrange_length (l : list A) :
  length (Dplyr.arrange before l) = length l.
Proof.
  induction l as [|x l IH]; simpl; [reflexivity|].
  rewrite arrange_insert_length, IH. reflexivity.
Qed.

Lemma arrange_insert_count (f : A -> bool) (x : A) (l : list A) :
  length (List.filter f (Dplyr.arrange_insert before x l))
  = length (List.filter f (x :: l)).
Proof.
  induction l as [|z l IH]; [reflexivity|].
  simpl. destruct (before z x); [|reflexivity].
  simpl in *. destruct (f z), (f x); simpl in *; lia.
Qed.

Lemma arrange_count (f : A -> bool) (l : list A) :
  length (List.filter f (Dplyr.arrange before l)) = length (List.filter f l).
Proof.
  induction l as [|x l IH]; [reflexivity|].
  change (Dplyr.arrange before (x :: l))
    with (Dplyr.arrange_insert before x (Dplyr.arrange before l)).
  rewrite arrange_insert_count. simpl. destruct (f x); simpl; lia.
Qed.

End DplyrFacts.

Section JoinFacts.
Context {A B C K : Type} `{EqDecision K}.
Context (kx : A -> K) (ky : B -> K) (combine : A -> option B -> C).

(** Where a row of a left join comes from. *)
Lemma left_join_In (c : C) (x : list A) (y : list B) :
  In c (Dplyr.left_join kx ky combine x y) <->
  exists a, In a x /\
    ((exists b, In b y /\ ky b = kx a /\ c = combine a (Some b))
     \/ ((forall b, In b y -> ky b <> kx a) /\ c = combine a None)).
Proof.
  unfold Dplyr.left_join. rewrite in_flat_map. split.
  - intros (a & Ha & Hc). exists a. split; [exact Ha|].
    destruct (List.filter (fun b => bool_decide (ky b = kx a)) y) as [|b0 m] eqn:E.
    + right. destruct Hc as [Hc|[]]. split; [|congruence].
      intros b Hb Hk.
      assert (Hin : In b (List.filter (fun b => bool_decide (ky b = kx a)) y)).
      { apply filter_In. split; [exact Hb|]. apply bool_decide_eq_true. exact Hk. }
      rewrite E in Hin. destruct Hin.
    + left. rewrite <- E in Hc. apply in_map_iff in Hc as (b & Hb & Hin).
      apply filter_In in Hin as [Hin Hk]. apply bool_decide_eq_true in Hk.
      exists b. repeat split; [assumption|assumption|congruence].
  - intros (a & Ha & H). exists a. split; [exact Ha|].
    destruct H as [(b & Hb & Hk & ->)|[Hnone ->]].
    + assert (Hin : In b (List.filter (fun b => bool_decide (ky b = kx a)) y)).
      { apply filter_In. split; [exact Hb|]. apply bool_decide_eq_true. exact Hk. }
      destruct (List.filter (fun b => bool_decide (ky b = kx a)) y) as [|b0 m] eqn:E;
        [destruct Hin|].
      rewrite <- E. apply in_map_iff. exists b. rewrite E. split; [reflexivity|exact Hin].
    + destruct (List.filter (fun b => bool_decide (ky b = kx a)) y) as [|b0 m] eqn:E;
        [left; reflexivity|].
      assert (Hin : In b0 (List.filter (fun b => bool_decide (ky b = kx a)) y))
        by (rewrite E; left; reflexivity).
      apply filter_In in Hin as [Hin Hk]. apply bool_decide_eq_true in Hk.
      destruct (Hnone b0 Hin Hk).
Qed.

(** Every row of the left table survives a left join. *)
Lemma left_join_keeps (a : A) (x : list A) (y : list B) :
  In a x -> exists b, In (combine a b) (Dplyr.left_join kx ky combine x y).
Proof.
  intros Ha.
  destruct (List.filter (fun b => bool_decide (ky b = kx a)) y) as [|b0 m] eqn:E.
  - exists None. apply left_join_In. exists a. split; [exact Ha|]. right.
    split; [|reflexivity]. intros b Hb Hk.
    assert (Hin : In b (List.filter (fun b => bool_decide (ky b = kx a)) y)).
    { apply filter_In. split; [exact Hb|]. apply bool_decide_eq_true. exact Hk. }
    rewrite E in Hin. destruct Hin.
  - assert (Hin : In b0 (List.filter (fun b => bool_decide (ky b = kx a)) y))
      by (rewrite E; left; reflexivity).
    apply filter_In in Hin as [Hin Hk]. apply bool_decide_eq_true in Hk.
    exists (Some b0). apply left_join_In. exists a. split; [exact Ha|]. left.
    exists b0. auto.
Qed.

End JoinFacts.

(** ** Comparisons and buckets *)

Section NumericFacts.
Import RValue.
Local Open Scope Q_scope.

Lemma Qle_bool_false (a b : Q) : Qle_bool a b = false <-> b < a.
Proof.
  split; intros H.
  - apply Qnot_le_lt. intros Hle. apply Qle_bool_iff in Hle. congruence.
  - destruct (Qle_bool a b) eqn:E; [|reflexivity].
    apply Qle_bool_iff in E. lra.
Qed.

Lemma num_le_Num (a b : Q) : num_le (Num a) (Num b) = Some (Qle_bool a b).
Proof.
  unfold num_le, num_compare.
  destruct (Qcompare_spec a b) as [H|H|H]; symmetry; f_equal.
  - apply Qle_bool_iff. lra.
  - apply Qle_bool_iff. lra.
  - apply Qle_bool_false. exact H.
Qed.

Lemma num_ge_Num (a b : Q) : num_ge (Num a) (Num b) = Some (Qle_bool b a).
Proof. apply num_le_Num. Qed.

Lemma num_lt_Num (a b : Q) : num_lt (Num a) (Num b) = Some (negb (Qle_bool b a)).
Proof.
  unfold num_lt, num_compare.
  destruct (Qcompare_spec a b) as [H|H|H]; symmetry; f_equal.
  - apply negb_false_iff, Qle_bool_iff. lra.
  - apply negb_true_iff, Qle_bool_false. exact H.
  - apply negb_false_iff, Qle_bool_iff. lra.
Qed.

End NumericFacts.

(** ** Growth categories (01_labor_market_trends.R) *)

Section GrowthCategory.
Import RValue LaborMarketTrends.
Local Open Scope Q_scope.

Lemma growth_category_Num (q : Q) :
  growth_category_of (Num q) =
  Some (if Qle_bool 15 q then "High Growth"
        else if Qle_bool 8 q then "Moderate Growth"
        else if Qle_bool 0 q then "Slow Growth"
        else "Decline")%string.
Proof.
  unfold growth_category_of. simpl case_when. rewrite !num_ge_Num.
  destruct (Qle_bool 15 q), (Qle_bool 8 q), (Qle_bool 0 q); reflexivity.
Qed.

(** C5.  The growth category of a projected growth value: "Unknown" when the
    value is missing, "High Growth" from 15 up, "Moderate Growth" from 8 up
    to 15, "Slow Growth" from 0 up to 8, "Decline" below 0; 19.6, 10.4 and
    -2.0 fall in "High Growth", "Moderate Growth" and "Decline"; and every
    row of the labor summary carries the category of its own projected
    growth. *)
Theorem growth_category_buckets :
  growth_category_of NA = Some "Unknown"%string
  /\ (forall q, 15 <= q -> growth_category_of (Num q) = Some "High Growth"%string)
  /\ (forall q, 8 <= q -> q < 15 ->
        growth_category_of (Num q) = Some "Moderate Growth"%string)
  /\ (forall q, 0 <= q -> q < 8 -> growth_category_of (Num q) = Some "Slow Growth"%string)
  /\ (forall q, q < 0 -> growth_category_of (Num q) = Some "Decline"%string)
  /\ growth_category_of PosInf = Some "High Growth"%string
  /\ growth_category_of NegInf = Some "Decline"%string
  /\ growth_category_of (Num 19.6) = Some "High Growth"%string
  /\ growth_category_of (Num 10.4) = Some "Moderate Growth"%string
  /\ growth_category_of (Num (-2.0)) = Some "Decline"%string
  /\ (forall oews_df proj_df crosswalk_df r,
        In r (compute_labor_market_summary oews_df proj_df crosswalk_df) ->
        growth_category r = growth_category_of (projected_growth_pct r)).
Proof.
  repeat split; try reflexivity.
  - intros q H. rewrite growth_category_Num.
    apply Qle_bool_iff in H. rewrite H. reflexivity.
  - intros q H8 H15. rewrite growth_category_Num.
    apply Qle_bool_iff in H8. apply Qle_bool_false in H15. rewrite H8, H15. reflexivity.
  - intros q H0 H8. rewrite growth_category_Num.
    assert (H15 : q < 15) by lra.
    apply Qle_bool_iff in H0. apply Qle_bool_false in H8. apply Qle_bool_false in H15.
    rewrite H0, H8, H15. reflexivity.
  - intros q H0. rewrite growth_category_Num.
    assert (H8 : q < 8) by lra. assert (H15 : q < 15) by lra.
    apply Qle_bool_false in H0. apply Qle_bool_false in H8. apply Qle_bool_false in H15.
    rewrite H0, H8, H15. reflexivity.
  - intros oews_df proj_df crosswalk_df r Hr.
    unfold compute_labor_market_summary in Hr.
    apply arrange_In in Hr. apply in_map_iff in Hr as (ld & <- & _). reflexivity.
Qed.

End GrowthCategory.

(** ** Credential risk (02_credential_pressure.R) *)

Section CredentialRisk.
Import RValue CredentialPressure Spec.
Local Open Scope Q_scope.

(** Closes a case of the lookup whose assumptions contradict each other. *)
Ltac contradictory_case :=
  exfalso; subst;
  match goal with
  | H : ~ _ |- _ => apply H; solve [split; congruence | congruence]
  | H : _ /\ _ |- _ => destruct H; congruence
  | _ => congruence
  end.

Lemma credential_risk_score_lookup (l t : character) :
  credential_risk_score_of l t = Num (credential_lookup l t).
Proof.
  unfold credential_risk_score_of, credential_lookup, case_when_num, chr_eq, and3, TRUE.
  destruct l as [l|], t as [t|]; simpl;
    repeat match goal with
      | |- context [bool_decide ?P] => destruct (bool_decide_reflect P)
      end;
    repeat match goal with
      | |- context [decide ?P] => destruct (decide P)
      end;
    simpl; try reflexivity; contradictory_case.
Qed.


Lemma credential_risk_category_bucket (q : Q) :
  credential_risk_category_of (Num q) = Some (credential_bucket q).
Proof.
  unfold credential_risk_category_of, credential_bucket. simpl case_when.
  rewrite !num_le_Num.
  destruct (Qle_bool q 0.25), (Qle_bool q 0.45); reflexivity.
Qed.

Lemma exam_trends_valid_In (df : list credential_row) (r : credential_row) :
  exam_trends_valid df = true -> In r df -> chr_in (exam_trend r) allowed_values = true.
Proof.
  unfold exam_trends_valid. intros Hv Hr. apply Nat.eqb_eq in Hv.
  destruct (chr_in (exam_trend r) allowed_values) eqn:E; [reflexivity|].
  assert (Hin : In r (List.filter
                        (fun r => negb (chr_in (exam_trend r) allowed_values)) df)).
  { apply filter_In. split; [exact Hr|]. rewrite E. reflexivity. }
  destruct (List.filter (fun r => negb (chr_in (exam_trend r) allowed_values)) df);
    [destruct Hin|discriminate].
Qed.



(** C10.  With an exam trend among the allowed values the lookup always
    yields a score, whatever the licensure value (missing included), and the
    score always has a category; a pair that none of the explicit cases names
    falls to the catch-all and scores 0.3 ("Moderate"), as licensure "No"
    with trend "Down" does; and no row of the summary lacks a score or a
    category. *)
Theorem credential_lookup_total :
  forall (licensure_required : character) (exam_trend : string),
    In exam_trend allowed_values ->
    (exists q c,
        credential_risk_score_of licensure_required (Some exam_trend) = Num q
        /\ credential_risk_category_of (Num q) = Some c
        /\ In c ["Low"; "Moderate"; "High"]%string)
    /\ (~ explicit_case licensure_required exam_trend ->
        credential_risk_score_of licensure_required (Some exam_trend) = Num 0.3
        /\ credential_risk_category_of (Num 0.3) = Some "Moderate"%string)
    /\ credential_risk_score_of (Some "No"%string) (Some "Down"%string) = Num 0.3
    /\ (forall credential_df r,
          In r (credential_summary credential_df) ->
          exists q c, credential_risk_score r = Num q
                      /\ credential_risk_category r = Some c).
Proof.
  intros l t Ht. split; [|split; [|split]].
  - exists (credential_lookup l (Some t)), (credential_bucket (credential_lookup l (Some t))).
    split; [apply credential_risk_score_lookup|].
    split; [apply credential_risk_category_bucket|].
    unfold credential_bucket.
    destruct (Qle_bool _ 0.25); [simpl; auto|].
    destruct (Qle_bool _ 0.45); simpl; auto.
  - intros Hnot. split; [|reflexivity].
    rewrite credential_risk_score_lookup. f_equal.
    unfold credential_lookup, explicit_case in *.
    repeat match goal with
      | |- context [decide ?P] => destruct (decide P)
      end;
    try reflexivity; exfalso; apply Hnot; intuition congruence.
  - reflexivity.
  - intros credential_df r Hr. unfold credential_summary in Hr.
    apply arrange_In in Hr. apply in_map_iff in Hr as (row & <- & _).
    unfold summarize_row; simpl.
    rewrite credential_risk_score_lookup, credential_risk_category_bucket. eauto.
Qed.

Lemma credential_lookup_total_witness :
  credential_risk_score_of (Some "No"%string) (Some "Down"%string) = Num 0.3
  /\ credential_risk_category_of (Num 0.3) = Some "Moderate"%string.
Proof.
  apply (credential_lookup_total (Some "No"%string) "Down"%string).
  - simpl. auto.
  - unfold explicit_case. intros H.
    decompose [or and] H; discriminate.
Defined.

End CredentialRisk.

(** ** The composite index (05_market_risk_index.R) *)

Section CompositeIndex.
Import RValue Config MarketRiskIndex Spec.
Local Open Scope Q_scope.


Lemma market_risk_rows (weights : weights_list) (labor_df : list labor_row)
    (credential_df : list credential_row) (peer_df : list peer_row) (r : risk_row) :
  In r (market_risk weights labor_df credential_df peer_df) <->
  exists j, In j (join_components (labor_risk labor_df) (credential_risk credential_df)
                    (peer_risk peer_df))
            /\ r = mutate_risk weights j.
Proof.
  unfold market_risk. rewrite arrange_In, in_map_iff.
  split; intros (j & H1 & H2); exists j; [split; [exact H2|symmetry; exact H1]|].
  split; [symmetry; exact H2|exact H1].
Qed.



End CompositeIndex.

(** ** The refresh gate (00_market_config.R) *)

Section RefreshGate.
Import RValue Script Config Spec.

Lemma inputs_changed_spec (cached : gmap string string) (input_files : list string)
    (w : world) :
  exists b, inputs_changed cached input_files w = (Returned b, w)
            /\ (b = true <-> exists f, In f input_files /\ input_stale w cached f).
Proof.
  induction input_files as [|f rest IH].
  - exists false. split; [reflexivity|]. split; [discriminate|].
    intros (f & [] & _).
  - simpl. unfold bind, file_exists, file_mtime. simpl.
    destruct (files w !! f) as [file|] eqn:Ef.
    + rewrite bool_decide_true by eauto. simpl. rewrite Ef. simpl.
      destruct (bool_decide (cached !! f = None)
                || negb (bool_decide (Some (mtime file) = cached !! f))) eqn:Ec.
      * exists true. split; [reflexivity|]. split; [|reflexivity]. intros _.
        exists f. split; [left; reflexivity|]. unfold input_stale. rewrite Ef. simpl.
        apply orb_true_iff in Ec as [Ec|Ec].
        -- apply bool_decide_eq_true in Ec. auto.
        -- apply negb_true_iff, bool_decide_eq_false in Ec. right. right. congruence.
      * destruct IH as (b & Hb & Hiff). exists b. split; [exact Hb|].
        rewrite Hiff. split.
        -- intros (g & Hg & Hs). exists g. split; [right; exact Hg|exact Hs].
        -- intros (g & [<-|Hg] & Hs); [|eauto]. exfalso.
           apply orb_false_iff in Ec as [E1 E2].
           apply bool_decide_eq_false in E1.
           apply negb_false_iff, bool_decide_eq_true in E2.
           unfold input_stale in Hs. rewrite Ef in Hs. simpl in Hs.
           destruct Hs as [Hs|[Hs|Hs]]; [discriminate|contradiction|].
           apply Hs. symmetry. exact E2.
    + rewrite bool_decide_false by (intros [? ?]; discriminate). simpl.
      exists true. split; [reflexivity|]. split; [|reflexivity]. intros _.
      exists f. split; [left; reflexivity|]. left. exact Ef.
Qed.

Lemma should_rebuild_run (MARKET_CONFIG : market_config) (script_name : string)
    (input_files : list string) (w : world) :
  cache_readable MARKET_CONFIG script_name w ->
  exists b,
    should_rebuild MARKET_CONFIG script_name input_files w = (Returned b, w)
    /\ (b = true <-> rebuild_needed MARKET_CONFIG script_name input_files w).
Proof.
  intros Hread.
  unfold should_rebuild, rebuild_needed, cache_readable, cache_record in *.
  destruct (FORCE_REBUILD MARKET_CONFIG) eqn:Eforce.
  { exists true. split; [reflexivity|]. tauto. }
  unfold bind, file_exists, fromJSON. simpl.
  destruct (files w !! cache_file_of MARKET_CONFIG script_name) as [file|] eqn:Ecache.
  - rewrite bool_decide_true by eauto. simpl.
    destruct Hread as [Hf|[Hf|Hf]]; [discriminate|discriminate|].
    rewrite Ecache. simpl in Hf |- *.
    destruct (data file) as [hd rs|sn ts recorded|bd|]; try (destruct Hf; discriminate).
    destruct (inputs_changed_spec recorded input_files w) as (b & Hb & Hiff).
    exists b. split; [exact Hb|]. rewrite Hiff. split.
    + intros H. right. right. exists recorded. split; [reflexivity|exact H].
    + intros [H|[H|(rec' & Hrec & H)]]; [discriminate|discriminate|].
      injection Hrec as <-. exact H.
  - rewrite bool_decide_false by (intros [? ?]; discriminate). simpl.
    exists true. split; [reflexivity|]. tauto.
Qed.



End RefreshGate.

(** ** Loading the configuration (00_market_config.R) *)

Section ConfigurationLoad.
Import RValue Script Config Spec.
Local Open Scope Q_scope.

Lemma append_empty_r (s : string) : s +:+ "" = s.
Proof.
  induction s as [|c s IH]; [reflexivity|].
  change (String c (s +:+ "") = String c s). f_equal. exact IH.
Qed.

Lemma mentions_suffix (prefix s : string) : mentions (prefix +:+ s) s.
Proof. exists prefix, ""%string. rewrite append_empty_r. reflexivity. Qed.

(** [get_data_root] only reads the world, and either returns or stops. *)
Lemma get_data_root_cases (w : world) :
  (exists root, get_data_root w = (Returned root, w))
  \/ (exists msg, get_data_root w = (Stopped msg, w)).
Proof.
  unfold get_data_root, bind, sys_getenv_SHRS_DATA_ROOT, dir_exists, file_exists,
    source_data_paths, stop, ret.
  destruct (nzchar (env_SHRS_DATA_ROOT w)).
  - destruct (bool_decide (env_SHRS_DATA_ROOT w ∈ dirs w)); simpl; eauto.
  - destruct (bool_decide (is_Some (files w !! "scripts/config/data_paths.R"%string)));
      simpl; [|eauto].
    destruct (data <$> files w !! "scripts/config/data_paths.R"%string)
      as [[hd rs|sn ts m|[d|]|]|]; simpl; eauto.
    destruct (bool_decide (d ∈ dirs w)); simpl; eauto.
Qed.

(** C9.  The data root is looked for in the environment variable first: when
    the variable is set, its directory is returned if it exists and the call
    stops, naming it, if it does not, without turning to the config file.
    The config file is the second source, used when the variable is unset.
    In every state where neither source yields an existing directory the
    call stops with a message instead of returning a path. *)
Theorem data_root_resolution :
  forall w : world,
    (env_resolves w -> get_data_root w = (Returned (env_SHRS_DATA_ROOT w), w))
    /\ (env_SHRS_DATA_ROOT w <> ""%string ->
        env_SHRS_DATA_ROOT w ∉ dirs w ->
        exists msg, get_data_root w = (Stopped msg, w)
                    /\ mentions msg (env_SHRS_DATA_ROOT w))
    /\ (env_SHRS_DATA_ROOT w = ""%string ->
        forall d, config_file_resolves w d -> get_data_root w = (Returned d, w))
    /\ (~ env_resolves w ->
        (forall d, ~ config_file_resolves w d) ->
        exists msg, get_data_root w = (Stopped msg, w) /\ msg <> ""%string).
Proof.
  intros w.
  unfold env_resolves, config_file_resolves.
  unfold get_data_root, bind, sys_getenv_SHRS_DATA_ROOT, dir_exists, file_exists,
    source_data_paths, stop, ret, nzchar.
  destruct (decide (env_SHRS_DATA_ROOT w = ""%string)) as [Eenv|Eenv].
  - rewrite (bool_decide_true _ Eenv). simpl.
    split; [intros [H _]; contradiction|]. split; [intros H; contradiction|].
    split.
    + intros _ d [Hfile Hdir].
      destruct (files w !! "scripts/config/data_paths.R"%string) as [file|] eqn:Ef;
        [|discriminate].
      rewrite bool_decide_true by eauto. simpl in *. rewrite ?Ef. simpl.
      injection Hfile as Hfile. rewrite Hfile.
      rewrite (bool_decide_true _ Hdir). reflexivity.
    + intros _ Hnone.
      destruct (files w !! "scripts/config/data_paths.R"%string) as [file|] eqn:Ef.
      * rewrite bool_decide_true by eauto. simpl. rewrite Ef. simpl.
        destruct (data file) as [hd rs|sn ts m|[d|]|] eqn:Ed;
          try (eexists; split; [reflexivity|discriminate]).
        destruct (decide (d ∈ dirs w)) as [Hd|Hd].
        -- destruct (Hnone d). split; [simpl; rewrite Ed; reflexivity|exact Hd].
        -- rewrite (bool_decide_false _ Hd). simpl.
           eexists; split; [reflexivity|discriminate].
      * rewrite bool_decide_false by (intros [? ?]; discriminate). simpl.
        eexists; split; [reflexivity|discriminate].
  - rewrite (bool_decide_false _ Eenv). simpl.
    split; [|split; [|split]].
    + intros [_ Hdir]. rewrite (bool_decide_true _ Hdir). reflexivity.
    + intros _ Hdir. rewrite (bool_decide_false _ Hdir). simpl.
      eexists; split; [reflexivity|]. apply mentions_suffix.
    + intros H; contradiction.
    + intros Hnot _.
      assert (Hdir : env_SHRS_DATA_ROOT w ∉ dirs w) by tauto.
      rewrite (bool_decide_false _ Hdir). simpl.
      eexists; split; [reflexivity|discriminate].
Qed.

(** The variable names a directory that is not there while the config file
    names one that is: the call stops on the variable; and nothing is
    configured at all in the empty world. *)
Lemma data_root_resolution_witness :
  let w :=
    {| env_SHRS_DATA_ROOT := "/missing"; dirs := {["/data"%string]};
       files := {["scripts/config/data_paths.R"%string :=
                    {| mtime := "2026-01-01"; data := RSource (Some "/data"%string) |}]};
       clock := "2026-01-04" |} in
  (exists msg, get_data_root w = (Stopped msg, w) /\ mentions msg "/missing")
  /\ (exists msg, get_data_root empty_world = (Stopped msg, empty_world)
                  /\ msg <> ""%string).
Proof.
  intros w. split.
  - apply (data_root_resolution w); [discriminate|].
    change ("/missing"%string ∉ ({["/data"%string]} : gset string)).
    apply not_elem_of_singleton. discriminate.
  - apply (data_root_resolution empty_world).
    + intros [H _]. apply H. reflexivity.
    + intros d [H _]. vm_compute in H. discriminate.
Defined.







End ConfigurationLoad.

(** ** The template fallback (stage scripts 01 to 04) *)

Section TemplateFallback.
Import RValue Script Config Spec Stages.

Lemma bind_returned {A B : Type} (m : M A) (k : A -> M B) (w w' : world) (a : A) :
  m w = (Returned a, w') -> bind m k w = k a w'.
Proof. intros H. unfold bind. rewrite H. reflexivity. Qed.

Lemma append_assoc (a b c : string) : (a +:+ b) +:+ c = a +:+ b +:+ c.
Proof.
  induction a as [|x a IH]; [reflexivity|].
  change (String x ((a +:+ b) +:+ c) = String x (a +:+ b +:+ c)). f_equal. exact IH.
Qed.

Lemma mentions_head (s rest : string) : mentions (s +:+ rest) s.
Proof. exists ""%string, rest. reflexivity. Qed.

Lemma mentions_self (s : string) : mentions s s.
Proof. exists ""%string, ""%string. symmetry. apply append_empty_r. Qed.

Lemma mentions_tail (prefix msg s : string) :
  mentions msg s -> mentions (prefix +:+ msg) s.
Proof.
  intros (b & a & ->). exists (prefix +:+ b), a. symmetry. apply append_assoc.
Qed.


(** With an input missing the gate always lets the stage through. *)
Lemma should_rebuild_missing_input (MARKET_CONFIG : market_config) (name : string)
    (input_files : list string) (w : world) (f : string) :
  cache_readable MARKET_CONFIG name w ->
  In f input_files ->
  files w !! f = None ->
  should_rebuild MARKET_CONFIG name input_files w = (Returned true, w).
Proof.
  intros Hread Hin Hf.
  destruct (should_rebuild_run MARKET_CONFIG name input_files w Hread)
    as (b & Hrun & Htrue).
  assert (Hb : b = true).
  { apply Htrue. destruct Hread as [H|[H|[recorded H]]].
    - left. exact H.
    - right. left. exact H.
    - right. right. exists recorded. split; [exact H|].
      exists f. split; [exact Hin|]. left. exact Hf. }
  subst b. exact Hrun.
Qed.

Lemma file_exists_absent (path : string) (w : world) :
  files w !! path = None -> file_exists path w = (Returned false, w).
Proof.
  intros H. unfold file_exists. rewrite H.
  rewrite bool_decide_false by (intros [? ?]; discriminate). reflexivity.
Qed.

Lemma file_exists_present (path : string) (w : world) :
  is_Some (files w !! path) -> file_exists path w = (Returned true, w).
Proof. intros H. unfold file_exists. rewrite (bool_decide_true _ H). reflexivity. Qed.





End TemplateFallback.

(** ** Percent ranks (03_peer_program_supply.R) *)

Section PercentRank.
Import RValue PeerProgramSupply Spec.
Local Open Scope Q_scope.

Lemma num_before_Num (a b : Q) : num_before (Num a) (Num b) = true <-> a < b.
Proof.
  unfold num_before. rewrite num_lt_Num.
  destruct (Qle_bool b a) eqn:E; simpl.
  - apply Qle_bool_iff in E. split; [discriminate|]. intros H. lra.
  - apply Qle_bool_false in E. tauto.
Qed.

Lemma num_before_present (y x : numeric) :
  num_before y x = true -> is_na y = false /\ is_na x = false.
Proof. destruct y, x; simpl; intros H; try discriminate; auto. Qed.

Lemma num_before_irrefl (x : numeric) : num_before x x = false.
Proof.
  destruct x as [| | |q]; try reflexivity.
  apply not_true_is_false. intros H. apply num_before_Num in H. lra.
Qed.



Lemma below_plus_not_below (xs : list numeric) (x : numeric) :
  (below xs x + not_below xs x = length (na_rm xs))%nat.
Proof.
  unfold below, not_below, na_rm.
  induction xs as [|y xs IH]; [reflexivity|]. simpl.
  destruct (num_before y x) eqn:E.
  - apply num_before_present in E as [Ey _]. rewrite Ey. simpl. lia.
  - destruct (is_na y); simpl; lia.
Qed.

Lemma not_below_self (xs : list numeric) (x : numeric) :
  In x xs -> is_na x = false -> (1 <= not_below xs x)%nat.
Proof.
  intros Hin Hx. unfold not_below.
  assert (H : In x (List.filter (fun y => negb (is_na y) && negb (num_before y x)) xs)).
  { apply filter_In. split; [exact Hin|]. rewrite Hx, num_before_irrefl. reflexivity. }
  destruct (List.filter _ xs); [destruct H|simpl; lia].
Qed.







Section Ratios.
Variables (b m : nat).
Hypothesis Hm : (1 <= m)%nat.




End Ratios.


(** *** The peer supply table *)

Lemma filter_map_count {A B : Type} (f : B -> bool) (h : A -> B) (l : list A) :
  length (List.filter f (List.map h l)) = length (List.filter (fun x => f (h x)) l).
Proof.
  induction l as [|x l IH]; [reflexivity|]. simpl.
  destruct (f (h x)); simpl; rewrite IH; reflexivity.
Qed.

Lemma filter_filter_count {A : Type} (p q : A -> bool) (l : list A) :
  length (List.filter p (List.filter q l))
  = length (List.filter (fun x => q x && p x) l).
Proof.
  induction l as [|x l IH]; [reflexivity|]. simpl.
  destruct (q x); simpl; [destruct (p x); simpl; rewrite IH; reflexivity|exact IH].
Qed.

Section PeerSupplyTable.
Variables (ipeds_df : list ipeds_row) (crosswalk : list crosswalk_row).

Let rows := with_region ipeds_df crosswalk.
Let supply := peer_supply ipeds_df crosswalk.

Lemma peer_supply_rows (r : supply_row) :
  In r supply <-> exists j, In j rows /\ r = rank_in_region rows j.
Proof.
  unfold supply, peer_supply. fold rows. rewrite arrange_In, in_map_iff.
  split; intros (j & H1 & H2); exists j; split; auto.
Qed.

(** Counting over the counts of a region in the table is counting over the
    region's group of joined rows. *)
Lemma region_counts_count (f : numeric -> bool) (g : character) :
  length (List.filter f (region_counts g supply))
  = length (List.filter f
              (List.map num_programs
                 (List.filter (fun j => bool_decide (region j = g)) rows))).
Proof.
  unfold region_counts, region_rows, supply, peer_supply. fold rows.
  rewrite !filter_map_count, !filter_filter_count, arrange_count, filter_map_count.
  reflexivity.
Qed.



End PeerSupplyTable.




End PercentRank.

(** ** Ranges of the computed values *)

Section AggregateFacts.
Import RValue Spec.
Local Open Scope Q_scope.














End AggregateFacts.

Section PipelineRanges.
Import RValue Config Spec Pipeline.
Local Open Scope Q_scope.


(** *** Tables read back from the files of earlier stages *)





(** *** The labor summary *)



(** *** The wage and cost table *)


(** *** The components of the risk index *)






(** *** The market risk table *)

Lemma peer_risk_rows (peer_df : list MarketRiskIndex.peer_row)
    (pr : MarketRiskIndex.peer_risk_row) :
  In pr (MarketRiskIndex.peer_risk peer_df) <->
  (exists x, In x peer_df /\ MarketRiskIndex.p_program x = MarketRiskIndex.pr_program pr)
  /\ MarketRiskIndex.pr_peer_saturation_risk pr
     = mean_na_rm
         (List.map MarketRiskIndex.p_saturation_percentile
            (List.filter
               (fun r => bool_decide (MarketRiskIndex.p_program r
                                      = MarketRiskIndex.pr_program pr))
               peer_df)).
Proof.
  unfold MarketRiskIndex.peer_risk, Dplyr.group_keys. rewrite in_map_iff.
  split.
  - intros (key & <- & Hkey). simpl. split; [|reflexivity].
    apply arrange_In in Hkey.
    rewrite <- list_elem_of_In, elem_of_remove_dups, list_elem_of_In in Hkey.
    apply in_map_iff in Hkey as (x & Hx & Hin). eauto.
  - intros [(x & Hx & Hkey) Hmean]. exists (MarketRiskIndex.pr_program pr). split.
    + destruct pr as [key risk]. simpl in *. rewrite Hmean. reflexivity.
    + apply arrange_In.
      rewrite <- list_elem_of_In, elem_of_remove_dups, list_elem_of_In.
      apply in_map_iff. eauto.
Qed.




End PipelineRanges.

(** ** The worked examples on IEEE doubles *)

Section Binary64Examples.

#[local] Set Warnings "-inexact-float".

(** The examples of the specification evaluate on binary64 values to what
    they evaluate to on exact decimals: the rounding of R's arithmetic does
    not move them. *)
Lemma binary64_examples :
  PrimFloat.eqb (Binary64.market_risk_index_of 0.1 0.2 0.5 0.3) 0.245 = true
  /\ Binary64.risk_category_of (Binary64.market_risk_index_of 0.1 0.2 0.5 0.3)
     = "Low Risk"%string
  /\ Binary64.growth_category_of 19.6 = "High Growth"%string
  /\ Binary64.growth_category_of 10.4 = "Moderate Growth"%string
  /\ Binary64.growth_category_of (-2.0) = "Decline"%string
  /\ Binary64.growth_category_of PrimFloat.nan = "Unknown"%string
  /\ Binary64.credential_risk_category_of 0.6 = "High"%string
  /\ Binary64.credential_risk_category_of 0.3 = "Moderate"%string
  /\ Binary64.credential_risk_category_of 0.2 = "Low"%string
  /\ Binary64.default_weights_off = false.
Proof. repeat split; vm_compute; reflexivity. Qed.

End Binary64Examples.

(** ** The scripts and the pipeline *)

Section ScriptsAndPipeline.
Import RValue Script Config Spec.

(** Run one after the other on the template tables, the five scripts
    complete, and the tables they leave in the output directory are the ones
    [Pipeline] composes from the same inputs. *)
Lemma scripts_write_the_pipeline_tables :
  let result := run_all_stages default_risk_weights template_world in
  let written path := data <$> files (snd result) !! path in
  fst result = Returned tt
  /\ written "output/tables/market_labor_summary.csv"%string
     = Some (Csv LaborMarketTrends.summary_header
               (LaborMarketTrends.frame_of_summary
                  (Pipeline.market_labor_summary Pipeline.template_inputs)))
  /\ written "output/tables/credential_pressure_summary.csv"%string
     = Some (Csv CredentialPressure.summary_header
               (CredentialPressure.frame_of_summary
                  (Pipeline.credential_pressure_summary Pipeline.template_inputs)))
  /\ written "output/tables/peer_program_supply.csv"%string
     = Some (Csv PeerProgramSupply.supply_header
               (PeerProgramSupply.frame_of_supply
                  (Pipeline.peer_program_supply Pipeline.template_inputs)))
  /\ written "output/tables/wage_vs_cost_context.csv"%string
     = Some (Csv WageVsCost.context_header
               (WageVsCost.frame_of_context
                  (Pipeline.wage_vs_cost_context Pipeline.template_inputs)))
  /\ written "output/tables/market_risk_index.csv"%string
     = Some (Csv MarketRiskIndex.risk_header
               (MarketRiskIndex.frame_of_risk "2026-01-04 12:00:00"
                  (Pipeline.market_risk_index default_risk_weights
                     Pipeline.template_inputs))).
Proof.
  intros result written.
  do 5 (split; [vm_compute; reflexivity|]).
  vm_compute; reflexivity.
Qed.

(** Run a second time on what the first run left, every stage finds its
    inputs unchanged and quits at the gate. *)
Lemma second_run_is_skipped :
  let w := snd (run_all_stages default_risk_weights template_world) in
  fst (LaborMarketTrends.labor_market_trends_R default_risk_weights None w) = Quit
  /\ fst (CredentialPressure.credential_pressure_R default_risk_weights None w) = Quit
  /\ fst (PeerProgramSupply.peer_program_supply_R default_risk_weights None w) = Quit
  /\ fst (WageVsCost.wage_vs_cost_context_R default_risk_weights None w) = Quit
  /\ fst (MarketRiskIndex.market_risk_index_R default_risk_weights None w) = Quit.
Proof.
  intros w.
  do 4 (split; [vm_compute; reflexivity|]).
  vm_compute; reflexivity.
Qed.

End ScriptsAndPipeline.

(** ** Worked values *)

Section WorkedValues.
Import RValue Spec.
Local Open Scope Q_scope.

Example standardize_soc_code_dashed :
  LaborMarketTrends.standardize_soc_code (Some "29-1127"%string) = Some "291127"%string
  /\ LaborMarketTrends.standardize_soc_code (Some "29-11"%string) = Some "291100"%string
  /\ LaborMarketTrends.standardize_soc_code None = None.
Proof. repeat split. Qed.

Example median_of_template_wages :
  is_num (median_na_rm [Num 84140; Num 86490; Num 84140; Num 51070; Num 68650;
                        Num 54730; Num 54730]) 68650
  /\ is_num (median_na_rm [Num 1; NA; Num 4; Num 2; Num 3]) 2.5
  /\ median_na_rm [NA; NA] = NA.
Proof. split; [|split]; vm_compute; reflexivity. Qed.

Example percent_rank_with_ties :
  let counts := [Num 45; Num 12; Num 45; Num 38; Num 52; Num 78; Num 78] in
  is_num (PeerProgramSupply.percent_rank_at counts (Num 12)) 0
  /\ is_num (PeerProgramSupply.percent_rank_at counts (Num 45)) (2 / 6)
  /\ is_num (PeerProgramSupply.percent_rank_at counts (Num 78)) (5 / 6)
  /\ PeerProgramSupply.percent_rank_at [Num 45] (Num 45) = NA
  /\ PeerProgramSupply.percent_rank_at counts NA = NA.
Proof. intros counts. split; [|split; [|split; [|split]]]; vm_compute; reflexivity. Qed.

Example missing_components_fall_to_high_risk :
  MarketRiskIndex.risk_category_of
    (MarketRiskIndex.market_risk_index_of Config.default_risk_weights
       (Num 0.1) (Num 0.2) NA (Num 0.3))
  = Some "High Risk"%string.
Proof. reflexivity. Qed.

End WorkedValues.

(** * Further properties of the scripts *)

(** ** The data root and the configuration *)

Section ConfigurationFacts.
Import RValue Script Config Spec.
Local Open Scope Q_scope.

Lemma get_data_root_returned (w w' : world) (root : string) :
  get_data_root w = (Returned root, w') ->
  w' = w
  /\ root ∈ dirs w
  /\ ((env_SHRS_DATA_ROOT w <> ""%string /\ root = env_SHRS_DATA_ROOT w)
      \/ (env_SHRS_DATA_ROOT w = ""%string /\ config_file_resolves w root)).
Proof.
  unfold config_file_resolves.
  unfold get_data_root, bind, sys_getenv_SHRS_DATA_ROOT, dir_exists, file_exists,
    source_data_paths, stop, ret, nzchar.
  destruct (decide (env_SHRS_DATA_ROOT w = ""%string)) as [Eenv|Eenv].
  - rewrite (bool_decide_true _ Eenv). simpl.
    destruct (files w !! "scripts/config/data_paths.R"%string) as [file|] eqn:Ef.
    + rewrite bool_decide_true by eauto. simpl. rewrite Ef. simpl.
      destruct (data file) as [hd rs|sn ts m|[d|]|] eqn:Ed; try discriminate.
      destruct (decide (d ∈ dirs w)) as [Hd|Hd].
      * rewrite (bool_decide_true _ Hd). simpl. intros H. injection H as <- <-.
        split; [reflexivity|]. split; [exact Hd|]. right. auto.
      * rewrite (bool_decide_false _ Hd). simpl. discriminate.
    + rewrite bool_decide_false by (intros [? ?]; discriminate). simpl. discriminate.
  - rewrite (bool_decide_false _ Eenv). simpl.
    destruct (decide (env_SHRS_DATA_ROOT w ∈ dirs w)) as [Hd|Hd].
    + rewrite (bool_decide_true _ Hd). simpl. intros H. injection H as <- <-.
      split; [reflexivity|]. split; [exact Hd|]. left. auto.
    + rewrite (bool_decide_false _ Hd). simpl. discriminate.
Qed.

(** X1.  [get_data_root] never ends the session quietly and never changes
    the world; a data root it returns always names a directory that exists,
    and is the environment variable's value when that is set and the config
    file's [DATA_ROOT] otherwise. *)
Theorem returned_data_root_exists :
  forall w : world,
    fst (get_data_root w) <> Quit
    /\ snd (get_data_root w) = w
    /\ (forall root,
          fst (get_data_root w) = Returned root ->
          root ∈ dirs w
          /\ ((env_SHRS_DATA_ROOT w <> ""%string /\ root = env_SHRS_DATA_ROOT w)
              \/ (env_SHRS_DATA_ROOT w = ""%string /\ config_file_resolves w root))).
Proof.
  intros w.
  destruct (get_data_root_cases w) as [[root Hroot]|[msg Hmsg]].
  - rewrite Hroot. simpl. split; [discriminate|]. split; [reflexivity|].
    intros root' H. injection H as <-.
    exact (proj2 (get_data_root_returned w w root Hroot)).
  - rewrite Hmsg. simpl. split; [discriminate|]. split; [reflexivity|].
    intros root H. discriminate.
Qed.

End ConfigurationFacts.

Section ConfigurationLoaded.
Import RValue Script Config Spec.
Local Open Scope Q_scope.






End ConfigurationLoaded.
(** ** The cache record and the gate of a stage *)

Section CacheAndGate.
Import RValue Script Config Spec Runs.




(** X4.  A stage whose gate finds nothing to rebuild quits before doing
    anything: once the configuration is in place, if the cache is readable
    and no rebuild is needed, each of the five stage scripts ends with
    [quit] and leaves every file as it was. *)
Theorem unchanged_stage_is_skipped :
  forall (s : stage) (written_weights : weights_list) (session : option market_config)
         (w : world) (MARKET_CONFIG : market_config) (w1 : world),
    ensure_config written_weights session w = (Returned MARKET_CONFIG, w1) ->
    cache_readable MARKET_CONFIG (stage_name s) w1 ->
    ~ rebuild_needed MARKET_CONFIG (stage_name s) (stage_inputs MARKET_CONFIG s) w1 ->
    stage_script s written_weights session w = (Quit, w1).
Proof.
  intros s ws session w cfg w1 Hcfg Hread Hnot.
  destruct (should_rebuild_run cfg (stage_name s) (stage_inputs cfg s) w1 Hread)
    as (b & Hrun & Hiff).
  assert (Hb : b = false) by (apply not_true_is_false; intros H; apply Hnot, Hiff, H).
  subst b.
  destruct s; simpl in *;
    [unfold LaborMarketTrends.labor_market_trends_R
    |unfold CredentialPressure.credential_pressure_R
    |unfold PeerProgramSupply.peer_program_supply_R
    |unfold WageVsCost.wage_vs_cost_context_R
    |unfold MarketRiskIndex.market_risk_index_R];
    rewrite (bind_returned _ _ _ _ _ Hcfg); cbv zeta;
    rewrite (bind_returned _ _ _ _ _ Hrun); reflexivity.
Qed.

Lemma unchanged_stage_is_skipped_witness :
  let input := CredentialPressure.CREDENTIAL_FILE example_config in
  let w :=
    {| env_SHRS_DATA_ROOT := "/data"; dirs := {["/data"]};
       files :=
         <[cache_file_of example_config "credential_pressure" :=
             {| mtime := "2026-01-03 09:00:00";
                data := Json "credential_pressure" "2026-01-03 09:00:00"
                          {[input := "2026-01-03 08:30:00"]} |}]>
         {[input := {| mtime := "2026-01-03 08:30:00"; data := Csv [] [] |}]};
       clock := "2026-01-04 12:00:00" |} in
  CredentialPressure.credential_pressure_R default_risk_weights (Some example_config) w
  = (Quit, w).
Proof.
  intros input w.
  assert (Hread : cache_readable example_config "credential_pressure" w).
  { right. right. exists {[input := "2026-01-03 08:30:00"]}. vm_compute. reflexivity. }
  apply (unchanged_stage_is_skipped CREDENTIAL_PRESSURE default_risk_weights
           (Some example_config) w example_config w eq_refl Hread).
  destruct (should_rebuild_run example_config "credential_pressure" [input] w Hread)
    as (b & Hrun & Hiff).
  assert (Hb : should_rebuild example_config "credential_pressure" [input] w
               = (Returned false, w)) by (vm_compute; reflexivity).
  intros Hneeded. apply Hiff in Hneeded. congruence.
Defined.

(** X5.  The wage-versus-cost stage needs the labor summary: if that file is
    absent when the stage gets past its gate, the stage stops with a message
    that names the missing path and the script to run first, and it writes
    nothing, not even the tuition template when the tuition file is missing
    too. *)
Theorem wage_stage_needs_labor_summary :
  forall (written_weights : weights_list) (session : option market_config)
         (w : world) (MARKET_CONFIG : market_config) (w1 : world),
    ensure_config written_weights session w = (Returned MARKET_CONFIG, w1) ->
    cache_readable MARKET_CONFIG "wage_vs_cost_context" w1 ->
    files w1 !! WageVsCost.LABOR_SUMMARY_FILE MARKET_CONFIG = None ->
    let msg := "Labor market summary not found: "
               +:+ WageVsCost.LABOR_SUMMARY_FILE MARKET_CONFIG +:+ nl
               +:+ "Please run 01_labor_market_trends.R first" in
    WageVsCost.wage_vs_cost_context_R written_weights session w = (Stopped msg, w1)
    /\ mentions msg (WageVsCost.LABOR_SUMMARY_FILE MARKET_CONFIG)
    /\ mentions msg "01_labor_market_trends.R".
Proof.
  intros ws session w cfg w1 Hcfg Hread Habsent msg. split; [|split].
  - unfold WageVsCost.wage_vs_cost_context_R.
    rewrite (bind_returned _ _ _ _ _ Hcfg). cbv zeta.
    erewrite bind_returned
      by (eapply should_rebuild_missing_input;
          [exact Hread|left; reflexivity|exact Habsent]).
    cbv beta iota. unfold negb.
    rewrite (bind_returned _ _ _ _ _ (file_exists_absent _ _ Habsent)).
    reflexivity.
  - apply mentions_tail, mentions_head.
  - do 3 apply mentions_tail. exists "Please run "%string, " first"%string. reflexivity.
Qed.

Lemma wage_stage_needs_labor_summary_witness :
  exists msg,
    WageVsCost.wage_vs_cost_context_R default_risk_weights (Some example_config) empty_world
    = (Stopped msg, empty_world)
    /\ mentions msg "output/tables/market_labor_summary.csv".
Proof.
  eexists.
  assert (Hread : cache_readable example_config "wage_vs_cost_context" empty_world)
    by (right; left; reflexivity).
  destruct (wage_stage_needs_labor_summary default_risk_weights (Some example_config)
              empty_world example_config empty_world eq_refl Hread eq_refl)
    as (Hrun & Hpath & _).
  split; [exact Hrun|exact Hpath].
Defined.

Lemma require_file_present (file_type path : string) (rest : list (string * string))
    (w : world) :
  is_Some (files w !! path) ->
  MarketRiskIndex.require_files ((file_type, path) :: rest) w
  = MarketRiskIndex.require_files rest w.
Proof.
  intros H. simpl. rewrite (bind_returned _ _ _ _ _ (file_exists_present _ _ H)).
  reflexivity.
Qed.

Lemma require_file_absent (file_type path : string) (rest : list (string * string))
    (w : world) :
  files w !! path = None ->
  MarketRiskIndex.require_files ((file_type, path) :: rest) w
  = (Stopped (file_type +:+ " file not found: " +:+ path +:+ nl
              +:+ "Please run the corresponding script first"), w).
Proof.
  intros H. simpl. rewrite (bind_returned _ _ _ _ _ (file_exists_absent _ _ H)).
  reflexivity.
Qed.

(** X6.  The risk index stage needs the tables of the three earlier stages:
    when one of them is absent the stage stops on the first missing one, in
    the order labor, credential, peer, naming its kind and its path, and
    writes nothing. *)
Theorem risk_stage_needs_earlier_tables :
  forall (written_weights : weights_list) (session : option market_config)
         (w : world) (MARKET_CONFIG : market_config) (w1 : world),
    ensure_config written_weights session w = (Returned MARKET_CONFIG, w1) ->
    cache_readable MARKET_CONFIG "market_risk_index" w1 ->
    let labor := MarketRiskIndex.LABOR_SUMMARY_FILE MARKET_CONFIG in
    let credential := MarketRiskIndex.CREDENTIAL_FILE MARKET_CONFIG in
    let peer := MarketRiskIndex.PEER_SUPPLY_FILE MARKET_CONFIG in
    let stopped file_type path :=
      MarketRiskIndex.market_risk_index_R written_weights session w
      = (Stopped (file_type +:+ " file not found: " +:+ path +:+ nl
                  +:+ "Please run the corresponding script first"), w1) in
    (files w1 !! labor = None -> stopped "labor" labor)
    /\ (is_Some (files w1 !! labor) -> files w1 !! credential = None ->
        stopped "credential" credential)
    /\ (is_Some (files w1 !! labor) -> is_Some (files w1 !! credential) ->
        files w1 !! peer = None -> stopped "peer" peer).
Proof.
  intros ws session w cfg w1 Hcfg Hread labor credential peer stopped.
  assert (Hgate : forall f, In f [labor; credential; peer] -> files w1 !! f = None ->
                            MarketRiskIndex.market_risk_index_R ws session w
                            = MarketRiskIndex.require_files
                                [("labor", labor); ("credential", credential);
                                 ("peer", peer)] w1).
  { intros f Hin Hf. unfold MarketRiskIndex.market_risk_index_R.
    rewrite (bind_returned _ _ _ _ _ Hcfg). cbv zeta.
    erewrite bind_returned
      by (eapply should_rebuild_missing_input; [exact Hread|exact Hin|exact Hf]).
    cbv beta iota. unfold negb. fold labor credential peer.
    unfold bind at 1.
    destruct (MarketRiskIndex.require_files _ w1) as [[[]| |msg] w2] eqn:E.
    - exfalso. revert E.
      destruct (files w1 !! labor) eqn:E1;
        [rewrite require_file_present by eauto|rewrite require_file_absent by exact E1;
                                               discriminate].
      destruct (files w1 !! credential) eqn:E2;
        [rewrite require_file_present by eauto|rewrite require_file_absent by exact E2;
                                               discriminate].
      destruct (files w1 !! peer) eqn:E3;
        [|rewrite require_file_absent by exact E3; discriminate].
      simpl in Hin. intuition congruence.
    - reflexivity.
    - reflexivity. }
  unfold stopped. split; [|split].
  - intros H. rewrite (Hgate labor) by (simpl; auto).
    apply require_file_absent. exact H.
  - intros H1 H2. rewrite (Hgate credential) by (simpl; auto).
    rewrite require_file_present by exact H1. apply require_file_absent. exact H2.
  - intros H1 H2 H3. rewrite (Hgate peer) by (simpl; auto).
    rewrite require_file_present by exact H1. rewrite require_file_present by exact H2.
    apply require_file_absent. exact H3.
Qed.

Lemma risk_stage_needs_earlier_tables_witness :
  MarketRiskIndex.market_risk_index_R default_risk_weights (Some example_config) empty_world
  = (Stopped ("labor file not found: output/tables/market_labor_summary.csv" +:+ nl
              +:+ "Please run the corresponding script first"), empty_world).
Proof.
  assert (Hread : cache_readable example_config "market_risk_index" empty_world)
    by (right; left; reflexivity).
  exact (proj1 (risk_stage_needs_earlier_tables default_risk_weights (Some example_config)
                  empty_world example_config empty_world eq_refl Hread) eq_refl).
Defined.

End CacheAndGate.
(** ** Column checks and code standardisation *)

Section ColumnChecks.
Import RValue Script Config Spec.

Lemma missing_columns_none (header required_cols : list string) :
  (forall c, In c required_cols -> c ∈ header) ->
  missing_columns header required_cols = [].
Proof.
  intros Hall. unfold missing_columns.
  induction required_cols as [|c rest IH]; [reflexivity|]. simpl.
  rewrite bool_decide_true by (apply Hall; left; reflexivity). simpl.
  apply IH. intros c' Hc'. apply Hall. right. exact Hc'.
Qed.

Lemma missing_columns_In (header required_cols : list string) (c : string) :
  In c (missing_columns header required_cols) <-> In c required_cols /\ c ∉ header.
Proof.
  unfold missing_columns. rewrite filter_In, negb_true_iff, bool_decide_eq_false.
  reflexivity.
Qed.

Lemma mentions_concat (sep : string) (l : list string) (c : string) :
  In c l -> mentions (String.concat sep l) c.
Proof.
  induction l as [|x rest IH]; [intros []|].
  intros [->|Hin].
  - destruct rest as [|y rest]; [apply mentions_self|apply mentions_head].
  - destruct rest as [|y rest]; [destruct Hin|].
    change (mentions (x +:+ sep +:+ String.concat sep (y :: rest)) c).
    do 2 apply mentions_tail. apply IH. exact Hin.
Qed.

(** X7.  [validate_required_columns] lets a table through exactly when it
    has every required column; otherwise it stops, changing nothing, with a
    message that names the table and every required column that is
    missing. *)
Theorem validate_required_columns_checks :
  forall (header required_cols : list string) (df_name wording : string) (w : world),
    ((forall c, In c required_cols -> c ∈ header) <->
     validate_required_columns header required_cols df_name wording w = (Returned tt, w))
    /\ (forall missing, In missing required_cols -> missing ∉ header ->
          exists msg,
            validate_required_columns header required_cols df_name wording w
            = (Stopped msg, w)
            /\ mentions msg df_name
            /\ forall c, In c required_cols -> c ∉ header -> mentions msg c).
Proof.
  intros header required df_name wording w.
  assert (Hstop : forall missing, In missing required -> missing ∉ header ->
            validate_required_columns header required df_name wording w
            = (Stopped (df_name +:+ wording
                        +:+ String.concat ", " (missing_columns header required)), w)).
  { intros c Hc Habsent. unfold validate_required_columns.
    destruct (missing_columns header required) as [|m ms] eqn:E; [|reflexivity].
    exfalso. assert (H : In c (missing_columns header required))
      by (apply missing_columns_In; split; assumption).
    rewrite E in H. destruct H. }
  split; [split|].
  - intros Hall. unfold validate_required_columns.
    rewrite (missing_columns_none _ _ Hall). reflexivity.
  - intros Hrun c Hc. destruct (decide (c ∈ header)) as [Hin|Hout]; [exact Hin|].
    rewrite (Hstop c Hc Hout) in Hrun. discriminate.
  - intros c Hc Habsent. eexists. split; [exact (Hstop c Hc Habsent)|]. split.
    + apply mentions_head.
    + intros c' Hc' Habsent'. do 2 apply mentions_tail. apply mentions_concat.
      apply missing_columns_In. split; assumption.
Qed.

Lemma remove_dashes_no_dash (x : string) :
  ~ In "-"%char (list_ascii_of_string (LaborMarketTrends.remove_dashes x)).
Proof.
  induction x as [|c x IH]; simpl; [tauto|].
  destruct (Ascii.eqb c "-") eqn:E; [exact IH|].
  simpl. intros [->|H]; [|exact (IH H)]. discriminate.
Qed.

Lemma remove_dashes_fixed (x : string) :
  ~ In "-"%char (list_ascii_of_string x) -> LaborMarketTrends.remove_dashes x = x.
Proof.
  induction x as [|c x IH]; simpl; [reflexivity|]. intros H.
  destruct (Ascii.eqb c "-") eqn:E.
  - apply Ascii.eqb_eq in E. tauto.
  - f_equal. apply IH. tauto.
Qed.

Lemma list_ascii_of_append (a b : string) :
  list_ascii_of_string (a +:+ b) = (list_ascii_of_string a ++ list_ascii_of_string b)%list.
Proof.
  induction a as [|c a IH]; [reflexivity|].
  change (c :: list_ascii_of_string (a +:+ b)
          = c :: (list_ascii_of_string a ++ list_ascii_of_string b)%list).
  f_equal. exact IH.
Qed.

Lemma length_append (a b : string) :
  String.length (a +:+ b) = (String.length a + String.length b)%nat.
Proof.
  induction a as [|c a IH]; [reflexivity|].
  change (S (String.length (a +:+ b)) = S (String.length a + String.length b)).
  f_equal. exact IH.
Qed.

Lemma zeros_spec (n : nat) :
  String.length (LaborMarketTrends.zeros n) = n
  /\ ~ In "-"%char (list_ascii_of_string (LaborMarketTrends.zeros n)).
Proof.
  induction n as [|n [IHlen IHdash]]; simpl; [tauto|]. split; [congruence|].
  intros [H|H]; [discriminate|tauto].
Qed.

(** X8.  [standardize_soc_code] keeps a missing code missing; a code that
    is present comes out without dashes and at least six characters long,
    unchanged if it already was so, and standardising twice is the same as
    standardising once. *)
Theorem standardize_soc_code_normal_form :
  forall x : character,
    (x = None <-> LaborMarketTrends.standardize_soc_code x = None)
    /\ (forall code, LaborMarketTrends.standardize_soc_code x = Some code ->
          ~ In "-"%char (list_ascii_of_string code)
          /\ (6 <= String.length code)%nat)
    /\ (forall code, x = Some code ->
          ~ In "-"%char (list_ascii_of_string code) ->
          (6 <= String.length code)%nat ->
          LaborMarketTrends.standardize_soc_code x = x)
    /\ LaborMarketTrends.standardize_soc_code (LaborMarketTrends.standardize_soc_code x)
       = LaborMarketTrends.standardize_soc_code x.
Proof.
  assert (Hnormal : forall s,
            let code := LaborMarketTrends.str_pad_right_6 (LaborMarketTrends.remove_dashes s) in
            ~ In "-"%char (list_ascii_of_string code) /\ (6 <= String.length code)%nat).
  { intros s. unfold LaborMarketTrends.str_pad_right_6. split.
    - rewrite list_ascii_of_append, in_app_iff.
      intros [H|H]; [exact (remove_dashes_no_dash _ H)|exact (proj2 (zeros_spec _) H)].
    - rewrite length_append, (proj1 (zeros_spec _)). lia. }
  assert (Hfixed : forall code,
            ~ In "-"%char (list_ascii_of_string code) -> (6 <= String.length code)%nat ->
            LaborMarketTrends.str_pad_right_6 (LaborMarketTrends.remove_dashes code) = code).
  { intros code Hdash Hlen. rewrite (remove_dashes_fixed _ Hdash).
    unfold LaborMarketTrends.str_pad_right_6.
    replace (6 - String.length code)%nat with 0%nat by lia. apply append_empty_r. }
  intros x. unfold LaborMarketTrends.standardize_soc_code.
  destruct x as [s|]; simpl.
  - split; [split; discriminate|]. split; [|split].
    + intros code [= <-]. apply Hnormal.
    + intros code [= ->] Hdash Hlen. f_equal. apply Hfixed; assumption.
    + f_equal. apply Hfixed; apply Hnormal.
  - split; [tauto|]. split; [discriminate|]. split; [discriminate|reflexivity].
Qed.

End ColumnChecks.
(** ** The credential stage, step by step *)

Section CredentialStage.
Import RValue Script Config Spec CredentialPressure.

Lemma gate_open (MARKET_CONFIG : market_config) (name : string)
    (input_files : list string) (w : world) :
  cache_readable MARKET_CONFIG name w ->
  rebuild_needed MARKET_CONFIG name input_files w ->
  should_rebuild MARKET_CONFIG name input_files w = (Returned true, w).
Proof.
  intros Hread Hneeded.
  destruct (should_rebuild_run MARKET_CONFIG name input_files w Hread) as (b & Hrun & Hiff).
  rewrite Hrun. apply Hiff in Hneeded. subst b. reflexivity.
Qed.

Lemma read_csv_table (path : string) (w : world) (t : string)
    (header : list string) (rows : list (list cell)) :
  files w !! path = Some {| mtime := t; data := Csv header rows |} ->
  read_csv path w = (Returned (header, rows), w).
Proof. intros H. unfold read_csv. rewrite H. reflexivity. Qed.

Lemma validate_required_columns_pass (header required_cols : list string)
    (df_name wording : string) (w : world) :
  (forall c, In c required_cols -> c ∈ header) ->
  validate_required_columns header required_cols df_name wording w = (Returned tt, w).
Proof.
  intros Hall. unfold validate_required_columns.
  rewrite (missing_columns_none _ _ Hall). reflexivity.
Qed.

Lemma select_columns_missing (header cols : list string) (c : string) (w : world) :
  In c cols -> c ∉ header ->
  exists c',
    In c' cols /\ (c' ∉ header)
    /\ select_columns header cols w
       = (Stopped ("Can't select columns that don't exist. Column `" +:+ c'
                   +:+ "` doesn't exist."), w).
Proof.
  intros Hc Hout. unfold select_columns.
  assert (H : In c (missing_columns header cols))
    by (apply missing_columns_In; split; assumption).
  destruct (missing_columns header cols) as [|c' rest] eqn:E; [destruct H|].
  exists c'. assert (H' : In c' (missing_columns header cols))
    by (rewrite E; left; reflexivity).
  apply missing_columns_In in H' as [H1 H2]. split; [exact H1|]. split; [exact H2|].
  reflexivity.
Qed.

(** The stage up to the point where the table has been read and its
    required columns checked. *)
Lemma credential_stage_reads (written_weights : weights_list)
    (session : option market_config) (w : world) (MARKET_CONFIG : market_config)
    (w1 : world) (t : string) (header : list string) (rows : list (list cell)) :
  ensure_config written_weights session w = (Returned MARKET_CONFIG, w1) ->
  cache_readable MARKET_CONFIG "credential_pressure" w1 ->
  rebuild_needed MARKET_CONFIG "credential_pressure" [CREDENTIAL_FILE MARKET_CONFIG] w1 ->
  files w1 !! CREDENTIAL_FILE MARKET_CONFIG = Some {| mtime := t; data := Csv header rows |} ->
  (forall c, In c credential_required_columns -> c ∈ header) ->
  credential_pressure_R written_weights session w
  = (let credential_df := credential_of_frame header rows in
     let* _ :=
       (if negb (exam_trends_valid credential_df) then
          stop ("Invalid exam_trend values. Allowed: "
                +:+ String.concat ", " allowed_values)
        else ret tt) in
     let* _ := select_columns header credential_selected_columns in
     let* _ := write_dual_format MARKET_CONFIG summary_header
                 (frame_of_summary (credential_summary credential_df))
                 "credential_pressure_summary" in
     save_cache_metadata MARKET_CONFIG "credential_pressure"
       [CREDENTIAL_FILE MARKET_CONFIG]) w1.
Proof.
  intros Hcfg Hread Hneeded Hfile Hcols. unfold credential_pressure_R.
  rewrite (bind_returned _ _ _ _ _ Hcfg). cbv zeta.
  rewrite (bind_returned _ _ _ _ _ (gate_open _ _ _ _ Hread Hneeded)).
  cbv beta iota. unfold negb at 1.
  rewrite (bind_returned _ _ _ _ _
             (file_exists_present _ _ (ex_intro _ _ Hfile))).
  unfold negb at 1. rewrite (bind_returned _ _ _ _ _ (eq_refl : ret tt w1 = _)).
  rewrite (bind_returned _ _ _ _ _ (read_csv_table _ _ _ _ _ Hfile)).
  cbn [fst snd].
  rewrite (bind_returned _ _ _ _ _ (validate_required_columns_pass _ _ _ _ _ Hcols)).
  reflexivity.
Qed.

(** X9.  A credential table with an [exam_trend] outside Up, Stable, Down
    and Unknown (a missing one included) stops the credential stage with
    the message that lists the allowed values; nothing is written. *)
Theorem invalid_exam_trend_stops_the_stage :
  forall (written_weights : weights_list) (session : option market_config)
         (w : world) (MARKET_CONFIG : market_config) (w1 : world)
         (t : string) (header : list string) (rows : list (list cell))
         (r : credential_row),
    ensure_config written_weights session w = (Returned MARKET_CONFIG, w1) ->
    cache_readable MARKET_CONFIG "credential_pressure" w1 ->
    rebuild_needed MARKET_CONFIG "credential_pressure" [CREDENTIAL_FILE MARKET_CONFIG] w1 ->
    files w1 !! CREDENTIAL_FILE MARKET_CONFIG
    = Some {| mtime := t; data := Csv header rows |} ->
    (forall c, In c credential_required_columns -> c ∈ header) ->
    In r (credential_of_frame header rows) ->
    (forall v, In v ["Up"; "Stable"; "Down"; "Unknown"] -> exam_trend r <> Some v) ->
    credential_pressure_R written_weights session w
    = (Stopped "Invalid exam_trend values. Allowed: Up, Stable, Down, Unknown", w1).
Proof.
  intros ws session w cfg w1 t header rows r Hcfg Hread Hneeded Hfile Hcols Hr Hbad.
  rewrite (credential_stage_reads _ _ _ _ _ _ _ _ Hcfg Hread Hneeded Hfile Hcols).
  cbv zeta.
  assert (Hinvalid : exam_trends_valid (credential_of_frame header rows) = false).
  { apply not_true_is_false. intros Hvalid.
    pose proof (exam_trends_valid_In _ _ Hvalid Hr) as Hin.
    unfold chr_in in Hin. destruct (exam_trend r) as [v|] eqn:E; [|discriminate].
    apply bool_decide_eq_true in Hin. apply list_elem_of_In in Hin.
    exact (Hbad v Hin eq_refl). }
  rewrite Hinvalid. reflexivity.
Qed.

Lemma invalid_exam_trend_stops_the_stage_witness :
  let MARKET_CONFIG := example_config in
  let w :=
    {| env_SHRS_DATA_ROOT := "/data"; dirs := {["/data"]};
       files :=
         {[CREDENTIAL_FILE MARKET_CONFIG :=
             {| mtime := "2026-01-03 08:30:00";
                data := Csv template_credential_header
                          [[chr "CSD_SLP"; chr "Yes"; chr "Rising"; chr "95%"; chr "none"]] |}]};
       clock := "2026-01-04 12:00:00" |} in
  credential_pressure_R default_risk_weights (Some MARKET_CONFIG) w
  = (Stopped "Invalid exam_trend values. Allowed: Up, Stable, Down, Unknown", w).
Proof.
  intros MARKET_CONFIG w.
  apply (invalid_exam_trend_stops_the_stage default_risk_weights (Some MARKET_CONFIG) w
           MARKET_CONFIG w "2026-01-03 08:30:00" template_credential_header
           [[chr "CSD_SLP"; chr "Yes"; chr "Rising"; chr "95%"; chr "none"]]
           {| program := Some "CSD_SLP"; licensure_required := Some "Yes";
              exam_trend := Some "Rising"; pass_rate_recent := Some "95%";
              scope_of_practice_notes := Some "none" |}).
  - reflexivity.
  - right. left. reflexivity.
  - right. left. reflexivity.
  - reflexivity.
  - intros c Hc. apply list_elem_of_In. simpl in Hc |- *.
    intuition (subst; auto 10).
  - left. reflexivity.
  - intros v Hv. simpl in Hv. intuition (subst; discriminate).
Defined.

(** X10.  [pass_rate_recent] is not among the columns the credential stage
    validates, yet the stage selects it: a table with the validated columns
    and valid trends but no [pass_rate_recent] gets past both checks and
    then stops in [select], before anything is written. *)
Theorem missing_pass_rate_stops_after_validation :
  forall (written_weights : weights_list) (session : option market_config)
         (w : world) (MARKET_CONFIG : market_config) (w1 : world)
         (t : string) (header : list string) (rows : list (list cell)),
    ensure_config written_weights session w = (Returned MARKET_CONFIG, w1) ->
    cache_readable MARKET_CONFIG "credential_pressure" w1 ->
    rebuild_needed MARKET_CONFIG "credential_pressure" [CREDENTIAL_FILE MARKET_CONFIG] w1 ->
    files w1 !! CREDENTIAL_FILE MARKET_CONFIG
    = Some {| mtime := t; data := Csv header rows |} ->
    (forall c, In c credential_required_columns -> c ∈ header) ->
    exam_trends_valid (credential_of_frame header rows) = true ->
    "pass_rate_recent" ∉ header ->
    validate_required_columns header credential_required_columns
      "Credential pressure data" " missing columns: " w1 = (Returned tt, w1)
    /\ exists msg,
         credential_pressure_R written_weights session w = (Stopped msg, w1)
         /\ mentions msg "pass_rate_recent".
Proof.
  intros ws session w cfg w1 t header rows Hcfg Hread Hneeded Hfile Hcols Hvalid Habsent.
  split; [apply validate_required_columns_pass; exact Hcols|].
  rewrite (credential_stage_reads _ _ _ _ _ _ _ _ Hcfg Hread Hneeded Hfile Hcols).
  cbv zeta. rewrite Hvalid. unfold negb.
  rewrite (bind_returned _ _ _ _ _ (eq_refl : ret tt w1 = _)).
  destruct (select_columns_missing header credential_selected_columns "pass_rate_recent" w1)
    as (c & Hc & Hout & Hstop); [simpl; auto 10|exact Habsent|].
  unfold bind. rewrite Hstop. eexists. split; [reflexivity|].
  assert (c = "pass_rate_recent") as ->.
  { simpl in Hc. destruct Hc as [<-|[<-|[<-|[<-|[<-|[]]]]]]; try reflexivity;
      exfalso; apply Hout, Hcols; simpl; auto 10. }
  apply mentions_tail, mentions_head.
Qed.

Lemma missing_pass_rate_stops_after_validation_witness :
  let MARKET_CONFIG := example_config in
  let w :=
    {| env_SHRS_DATA_ROOT := "/data"; dirs := {["/data"]};
       files :=
         {[CREDENTIAL_FILE MARKET_CONFIG :=
             {| mtime := "2026-01-03 08:30:00";
                data := Csv ["program"; "licensure_required"; "exam_trend";
                             "scope_of_practice_notes"]
                          [[chr "CSD_SLP"; chr "Yes"; chr "Stable"; chr "none"]] |}]};
       clock := "2026-01-04 12:00:00" |} in
  exists msg,
    credential_pressure_R default_risk_weights (Some MARKET_CONFIG) w = (Stopped msg, w)
    /\ mentions msg "pass_rate_recent".
Proof.
  intros MARKET_CONFIG w.
  apply (missing_pass_rate_stops_after_validation default_risk_weights (Some MARKET_CONFIG) w
           MARKET_CONFIG w "2026-01-03 08:30:00"
           ["program"; "licensure_required"; "exam_trend"; "scope_of_practice_notes"]
           [[chr "CSD_SLP"; chr "Yes"; chr "Stable"; chr "none"]]).
  - reflexivity.
  - right. left. reflexivity.
  - right. left. reflexivity.
  - reflexivity.
  - intros c Hc. apply list_elem_of_In. exact Hc.
  - vm_compute. reflexivity.
  - intros H. apply list_elem_of_In in H. simpl in H. intuition discriminate.
Defined.






End CredentialStage.
(** ** The tables the stages build *)

Section SortedTables.
Import RValue Runs.

Section Arrange.
Context {A : Type} (before : A -> A -> bool).
Hypothesis before_asym : forall a b, before a b = true -> before b a = false.
Hypothesis before_cotrans :
  forall a b c, before a c = true -> before a b = true \/ before b c = true.

Lemma arrange_insert_ordered (x : A) (l : list A) :
  ForallOrdPairs (fun a b => before b a = false) l ->
  ForallOrdPairs (fun a b => before b a = false) (Dplyr.arrange_insert before x l).
Proof.
  induction l as [|y l IH]; simpl; intros H.
  - constructor; constructor.
  - inversion H as [|? ? Hy Hl]; subst.
    pose proof (proj1 (List.Forall_forall _ _) Hy) as Hy'.
    destruct (before y x) eqn:E.
    + constructor; [|exact (IH Hl)]. apply List.Forall_forall. intros z Hz.
      apply arrange_insert_In in Hz as [->|Hz]; [exact (before_asym _ _ E)|exact (Hy' z Hz)].
    + constructor; [|exact H]. apply List.Forall_forall. intros z [<-|Hz]; [exact E|].
      apply not_true_is_false. intros Hzx.
      destruct (before_cotrans z y x Hzx) as [H'|H']; [|congruence].
      rewrite (Hy' z Hz) in H'. discriminate.
Qed.

Lemma arrange_ordered (l : list A) :
  ForallOrdPairs (fun a b => before b a = false) (Dplyr.arrange before l).
Proof.
  induction l as [|x l IH]; simpl; [constructor|].
  apply arrange_insert_ordered. exact IH.
Qed.

End Arrange.

Lemma desc_before_asym (x y : numeric) : desc_before x y = true -> desc_before y x = false.
Proof.
  destruct x as [| | |a], y as [| | |b]; try (cbv; congruence).
  simpl. intros H. apply num_before_Num in H. apply not_true_is_false. intros H'.
  apply num_before_Num in H'. lra.
Qed.

Lemma desc_before_cotrans (x y z : numeric) :
  desc_before x z = true -> desc_before x y = true \/ desc_before y z = true.
Proof.
  destruct x as [| | |a], y as [| | |b], z as [| | |c];
    try (cbv; intros; congruence); try (intros _; left; reflexivity);
    try (intros _; right; reflexivity).
  simpl. rewrite !num_before_Num. intros H.
  destruct (Qlt_le_dec b a) as [Hba|Hab]; [left; exact Hba|right; lra].
Qed.

Lemma desc_before_false (x y : numeric) :
  desc_before y x = false -> y = NA \/ num_le y x = Some true.
Proof.
  destruct x as [| | |a], y as [| | |b]; try (cbv; intros; congruence);
    try (intros _; left; reflexivity); try (intros _; right; reflexivity).
  simpl. intros H. right. rewrite num_le_Num. f_equal. apply Qle_bool_iff.
  destruct (Qlt_le_dec a b) as [Hab|Hba]; [|exact Hba].
  apply num_before_Num in Hab. congruence.
Qed.

Lemma arrange_descending {A : Type} (key : A -> numeric) (l : list A) :
  descending (List.map key
                (Dplyr.arrange (fun a b => desc_before (key a) (key b)) l)).
Proof.
  pose proof (arrange_ordered (fun a b => desc_before (key a) (key b))
                (fun a b => desc_before_asym (key a) (key b))
                (fun a b c => desc_before_cotrans (key a) (key b) (key c)) l) as H.
  unfold descending.
  induction H as [|x rest Hx Hrest IH]; simpl; constructor; [|exact IH].
  apply List.Forall_forall. intros y Hy. apply in_map_iff in Hy as (r & <- & Hr).
  apply desc_before_false. exact (proj1 (List.Forall_forall _ _) Hx r Hr).
Qed.

(** X12.  The four summary tables come out sorted on their key column,
    largest first and missing values last: the labor summary on the
    projected growth, the credential summary on the risk score, the
    wage-versus-cost table on the wage-to-cost ratio and the risk index
    table on the index. *)
Theorem summaries_are_sorted_descending :
  (forall oews_df proj_df crosswalk_df,
      descending
        (List.map LaborMarketTrends.projected_growth_pct
           (LaborMarketTrends.compute_labor_market_summary oews_df proj_df crosswalk_df)))
  /\ (forall credential_df,
        descending
          (List.map CredentialPressure.credential_risk_score
             (CredentialPressure.credential_summary credential_df)))
  /\ (forall labor_df tuition_df,
        descending
          (List.map WageVsCost.wage_to_cost_ratio
             (WageVsCost.wage_cost_context labor_df tuition_df)))
  /\ (forall weights labor_df credential_df peer_df,
        descending
          (List.map MarketRiskIndex.market_risk_index
             (MarketRiskIndex.market_risk weights labor_df credential_df peer_df))).
Proof.
  split; [|split; [|split]]; intros.
  - apply (arrange_descending LaborMarketTrends.projected_growth_pct).
  - apply (arrange_descending CredentialPressure.credential_risk_score).
  - apply (arrange_descending WageVsCost.wage_to_cost_ratio).
  - apply (arrange_descending MarketRiskIndex.market_risk_index).
Qed.

End SortedTables.
(** ** Rows of the risk index table *)

Section RiskTableRows.
Import RValue Config MarketRiskIndex.

Section JoinCounts.
Context {A B C K : Type} `{EqDecision K}.
Context (kx : A -> K) (ky : B -> K) (combine : A -> option B -> C).

Lemma left_join_length_ge (x : list A) (y : list B) :
  (length x <= length (Dplyr.left_join kx ky combine x y))%nat.
Proof.
  unfold Dplyr.left_join.
  set (F := fun a => match List.filter (fun b => bool_decide (ky b = kx a)) y with
                     | [] => [combine a None]
                     | matches => List.map (fun b => combine a (Some b)) matches
                     end).
  induction x as [|a x IH]; cbn [flat_map length]; [lia|].
  rewrite length_app.
  assert (1 <= length (F a))%nat; [|lia].
  unfold F. destruct (List.filter (fun b => bool_decide (ky b = kx a)) y); simpl; lia.
Qed.

Lemma unique_key_matches (k : K) (y : list B) :
  List.NoDup (List.map ky y) ->
  (length (List.filter (fun b => bool_decide (ky b = k)) y) <= 1)%nat.
Proof.
  induction y as [|b y IH]; simpl; [lia|]. intros Hnd.
  inversion Hnd as [|? ? Hout Hrest]; subst.
  destruct (bool_decide_reflect (ky b = k)) as [Hk|Hk]; [|exact (IH Hrest)].
  simpl. assert (Hnone : List.filter (fun b' => bool_decide (ky b' = k)) y = []).
  { destruct (List.filter (fun b' => bool_decide (ky b' = k)) y) as [|b' m] eqn:E;
      [reflexivity|].
    exfalso. assert (Hb' : In b' (List.filter (fun b' => bool_decide (ky b' = k)) y))
      by (rewrite E; left; reflexivity).
    apply filter_In in Hb' as [Hin Hkey]. apply bool_decide_eq_true in Hkey.
    apply Hout. rewrite Hk, <- Hkey. apply in_map. exact Hin. }
  rewrite Hnone. simpl. lia.
Qed.

Lemma left_join_length_unique (x : list A) (y : list B) :
  List.NoDup (List.map ky y) ->
  length (Dplyr.left_join kx ky combine x y) = length x.
Proof.
  intros Hnd. unfold Dplyr.left_join.
  set (F := fun a => match List.filter (fun b => bool_decide (ky b = kx a)) y with
                     | [] => [combine a None]
                     | matches => List.map (fun b => combine a (Some b)) matches
                     end).
  induction x as [|a x IH]; cbn [flat_map length]; [reflexivity|].
  rewrite length_app, IH.
  assert (length (F a) = 1)%nat as ->; [|reflexivity].
  unfold F. pose proof (unique_key_matches (kx a) y Hnd) as Hle.
  destruct (List.filter (fun b => bool_decide (ky b = kx a)) y) as [|b [|b' m]];
    simpl in *; lia.
Qed.

End JoinCounts.

Lemma arrange_NoDup {A : Type} (before : A -> A -> bool) (l : list A) :
  List.NoDup l -> List.NoDup (Dplyr.arrange before l).
Proof.
  induction l as [|x l IH]; simpl; intros Hnd; [constructor|].
  inversion Hnd as [|? ? Hout Hrest]; subst.
  assert (Hins : forall ys, List.NoDup ys -> ~ In x ys ->
                            List.NoDup (Dplyr.arrange_insert before x ys)).
  { clear. induction ys as [|y ys IHys]; simpl; intros Hnd Hout.
    - constructor; [intros []|constructor].
    - inversion Hnd as [|? ? Hy Hys]; subst. destruct (before y x).
      + constructor; [|apply IHys; tauto].
        rewrite arrange_insert_In. intros [->|H]; tauto.
      + constructor; [exact Hout|exact Hnd]. }
  apply Hins; [exact (IH Hrest)|]. rewrite arrange_In. exact Hout.
Qed.

Lemma peer_risk_keys_unique (peer_df : list peer_row) :
  List.NoDup (List.map pr_program (peer_risk peer_df)).
Proof.
  unfold peer_risk. rewrite List.map_map. simpl. rewrite List.map_id.
  apply arrange_NoDup. unfold Dplyr.group_keys. apply NoDup_ListNoDup, NoDup_remove_dups.
Qed.

(** X13.  The risk index table keeps every program of the labor summary: it
    has at least as many rows as the labor summary, a row for each of its
    programs, and exactly as many rows when no program occurs twice in the
    credential summary (a repeated program there repeats the rows). *)
Theorem risk_table_keeps_every_program :
  forall (weights : weights_list) (labor_df : list labor_row)
         (credential_df : list credential_row) (peer_df : list peer_row),
    let risk := market_risk weights labor_df credential_df peer_df in
    (length labor_df <= length risk)%nat
    /\ (forall l, In l labor_df -> exists r, In r risk /\ program r = l_program l)
    /\ (List.NoDup (List.map c_program credential_df) -> length risk = length labor_df).
Proof.
  intros weights labor_df credential_df peer_df risk. subst risk.
  unfold market_risk. rewrite arrange_length, length_map. unfold join_components.
  assert (Hlabor : length (labor_risk labor_df) = length labor_df)
    by (unfold labor_risk; apply length_map).
  split; [|split].
  - rewrite <- Hlabor.
    etransitivity; [|apply left_join_length_ge]. apply left_join_length_ge.
  - intros l Hl.
    set (lr := {| lr_program := l_program l;
                  lr_labor_demand_risk := labor_demand_risk_of (l_projected_growth_pct l);
                  lr_wage_level_risk :=
                    wage_level_risk_of (max_na_rm (List.map l_wage_index labor_df))
                      (l_wage_index l) |}).
    assert (Hlr : In lr (labor_risk labor_df)).
    { unfold labor_risk. apply in_map_iff. exists l. split; [reflexivity|exact Hl]. }
    destruct (left_join_keeps lr_program cr_program (fun l c => (l, c)) lr
                (labor_risk labor_df) (credential_risk credential_df) Hlr) as (c & Hc).
    destruct (left_join_keeps
                (fun lc : labor_risk_row * option credential_risk_row => lr_program (fst lc))
                pr_program
                (fun lc p => {| j_labor := fst lc; j_credential := snd lc; j_peer := p |})
                (lr, c) _ (peer_risk peer_df) Hc) as (p & Hp).
    eexists. split.
    + apply arrange_In, in_map. exact Hp.
    + reflexivity.
  - intros Hnd. rewrite <- Hlabor.
    rewrite left_join_length_unique by apply peer_risk_keys_unique.
    apply left_join_length_unique. unfold credential_risk. rewrite List.map_map. exact Hnd.
Qed.

Lemma num_mul_NA_l (y : numeric) : num_mul NA y = NA.
Proof. destruct y; reflexivity. Qed.

Lemma num_add_NA_r (x : numeric) : num_add x NA = NA.
Proof. destruct x; reflexivity. Qed.

(** X14.  A program of the risk index table that has no row in the
    credential summary, or none in the peer supply table, gets no index
    ([NA]) and the category "High Risk". *)
Theorem unmatched_program_is_high_risk :
  forall (weights : weights_list) (labor_df : list labor_row)
         (credential_df : list credential_row) (peer_df : list peer_row) (r : risk_row),
    In r (market_risk weights labor_df credential_df peer_df) ->
    (forall c, In c credential_df -> c_program c <> program r)
    \/ (forall p, In p peer_df -> p_program p <> program r) ->
    market_risk_index r = NA /\ risk_category r = Some "High Risk".
Proof.
  intros weights labor_df credential_df peer_df r Hr Hmissing.
  apply market_risk_rows in Hr as (j & Hj & ->). unfold join_components in Hj.
  apply left_join_In in Hj as (lc & Hlc & Hj).
  apply left_join_In in Hlc as (l & Hl & Hlc).
  assert (Hna : j_credential_pressure_risk j = NA \/ j_peer_saturation_risk j = NA).
  { destruct Hmissing as [Hcred|Hpeer]; [left|right].
    - unfold j_credential_pressure_risk.
      destruct Hlc as [(c & Hc & Hkey & ->)|[_ ->]].
      + exfalso. unfold credential_risk in Hc. apply in_map_iff in Hc as (c0 & <- & Hc0).
        apply (Hcred c0 Hc0). simpl in *.
        destruct Hj as [(p & _ & _ & ->)|[_ ->]]; simpl; exact Hkey.
      + destruct Hj as [(p & _ & _ & ->)|[_ ->]]; reflexivity.
    - unfold j_peer_saturation_risk.
      destruct Hj as [(p & Hp & Hkey & ->)|[_ ->]]; [|reflexivity].
      exfalso. apply peer_risk_rows in Hp as [(x & Hx & Hxp) _].
      apply (Hpeer x Hx). simpl in *. rewrite Hxp, Hkey.
      destruct Hlc as [(c & _ & _ & ->)|[_ ->]]; reflexivity. }
  assert (Hindex : market_risk_index (mutate_risk weights j) = NA).
  { cbn [market_risk_index mutate_risk]. unfold market_risk_index_of.
    destruct Hna as [-> | ->]; rewrite num_mul_NA_l, ?num_add_NA_r; reflexivity. }
  split; [exact Hindex|].
  cbn [market_risk_index risk_category mutate_risk] in Hindex |- *.
  rewrite Hindex. reflexivity.
Qed.

Lemma unmatched_program_is_high_risk_witness :
  let labor_df :=
    [{| l_program := Some "SMN_AT"; l_projected_growth_pct := Num 11.8;
        l_wage_index := Num 0.75 |}] in
  let peer_df :=
    [{| p_program := Some "SMN_AT"; p_saturation_percentile := Num 0.5 |}] in
  exists r, In r (market_risk default_risk_weights labor_df [] peer_df)
            /\ market_risk_index r = NA /\ risk_category r = Some "High Risk".
Proof.
  intros labor_df peer_df.
  assert (Hrow : exists r, In r (market_risk default_risk_weights labor_df [] peer_df)).
  { vm_compute. eexists. left. reflexivity. }
  destruct Hrow as [r Hr]. exists r. split; [exact Hr|].
  apply (unmatched_program_is_high_risk default_risk_weights labor_df [] peer_df r Hr).
  left. intros c [].
Defined.

End RiskTableRows.
(** ** The component scores *)

Section ComponentScores.
Import RValue Config MarketRiskIndex.
Local Open Scope Q_scope.

(** X15.  The wage level risk falls as the wage index rises: against a
    positive column maximum, a positive wage index that is at least another
    has at most the other's risk, and an index that reaches the maximum has
    risk zero. *)
Theorem wage_level_risk_falls_with_wage :
  forall M x y : Q,
    0 < M -> 0 < x -> x <= y ->
    exists rx ry,
      wage_level_risk_of (Num M) (Num x) = Num rx
      /\ wage_level_risk_of (Num M) (Num y) = Num ry
      /\ ry <= rx
      /\ (M <= y -> ry == 0).
Proof.
  intros M x y HM Hx Hxy.
  assert (Hrisk : forall v, 0 < v ->
            exists r, wage_level_risk_of (Num M) (Num v) = Num r
                      /\ ((v <= M /\ r == 1 - v / M) \/ (M < v /\ r == 0))).
  { intros v Hv. unfold wage_level_risk_of, num_div.
    destruct (Qeq_bool M 0) eqn:E; [apply Qeq_bool_iff in E; lra|].
    unfold pmin. rewrite num_le_Num.
    destruct (Qle_bool (v / M) 1.0) eqn:Ele.
    - apply Qle_bool_iff in Ele. eexists. split; [reflexivity|].
      destruct (Qlt_le_dec M v) as [Hlt|Hle].
      + exfalso. assert (1 < v / M); [|lra].
        apply Qlt_shift_div_l; lra.
      + left. split; [exact Hle|]. unfold Qminus. reflexivity.
    - apply Qle_bool_false in Ele. eexists. split; [reflexivity|].
      right. split; [|lra].
      destruct (Qlt_le_dec M v) as [Hlt|Hle]; [exact Hlt|].
      exfalso. assert (v / M <= 1); [|lra].
      apply Qle_shift_div_r; lra. }
  destruct (Hrisk x Hx) as (rx & Ex & Hrx).
  destruct (Hrisk y ltac:(lra)) as (ry & Ey & Hry).
  exists rx, ry. split; [exact Ex|]. split; [exact Ey|].
  assert (Hdiv : forall v, v <= M -> v / M <= 1) by (intros v Hv; apply Qle_shift_div_r; lra).
  assert (Hmono : x / M <= y / M).
  { unfold Qdiv. apply Qmult_le_compat_r; [exact Hxy|].
    apply Qlt_le_weak, Qinv_lt_0_compat, HM. }
  split.
  - destruct Hrx as [[Hx1 Hx2]|[Hx1 Hx2]], Hry as [[Hy1 Hy2]|[Hy1 Hy2]]; try lra.
    pose proof (Hdiv x Hx1). lra.
  - intros HMy. destruct Hry as [[Hy1 Hy2]|[Hy1 Hy2]]; [|exact Hy2].
    assert (HyM : y == M) by lra. rewrite Hy2, HyM.
    unfold Qdiv. rewrite Qmult_inv_r by lra. reflexivity.
Qed.

Lemma wage_level_risk_falls_with_wage_witness :
  exists rx ry,
    wage_level_risk_of (Num 1.2) (Num 0.6) = Num rx
    /\ wage_level_risk_of (Num 1.2) (Num 1.2) = Num ry
    /\ ry <= rx
    /\ ry == 0.
Proof.
  destruct (wage_level_risk_falls_with_wage 1.2 0.6 1.2) as (rx & ry & Hx & Hy & Hle & Hzero);
    [reflexivity|reflexivity|discriminate|].
  exists rx, ry. split; [exact Hx|]. split; [exact Hy|]. split; [exact Hle|].
  apply Hzero. apply Qle_refl.
Defined.

(** X16.  The labor summary and the risk index bucket the projected growth
    on the same thresholds: the labor demand risk the last stage computes is
    fixed by the growth category the first stage wrote, 0.5 for Unknown, 0.1
    for High Growth, 0.3 for Moderate Growth, 0.6 for Slow Growth and 0.9
    for Decline. *)
Theorem demand_risk_follows_growth_category :
  forall projected_growth_pct : numeric,
    In (LaborMarketTrends.growth_category_of projected_growth_pct,
        labor_demand_risk_of projected_growth_pct)
       [ (Some "Unknown"%string, Num 0.5);
         (Some "High Growth"%string, Num 0.1);
         (Some "Moderate Growth"%string, Num 0.3);
         (Some "Slow Growth"%string, Num 0.6);
         (Some "Decline"%string, Num 0.9) ].
Proof.
  intros [| | |q].
  - left. reflexivity.
  - do 4 right. left. reflexivity.
  - right. left. reflexivity.
  - rewrite growth_category_Num.
    unfold labor_demand_risk_of, case_when_num. simpl case_when. rewrite !num_ge_Num.
    destruct (Qle_bool 15 q), (Qle_bool 8 q), (Qle_bool 0 q); simpl; auto 10.
Qed.



End ComponentScores.
(** ** The peer supply table and the tables handed on *)

Section PeerSupplyRows.
Import RValue Spec PeerProgramSupply.

(** X18.  A region with a single counted row has no percentile to give: the
    row of the peer supply table whose region holds at most one program
    count gets the percentile [NA] and with it the saturation index
    "High". *)
Theorem lone_region_row_is_high :
  forall (ipeds_df : list ipeds_row) (crosswalk : list crosswalk_row) (r : supply_row),
    let supply := peer_supply ipeds_df crosswalk in
    In r supply ->
    (length (na_rm (region_counts (s_region r) supply)) <= 1)%nat ->
    saturation_percentile r = NA /\ saturation_index r = Some "High".
Proof.
  intros ipeds_df crosswalk r supply Hr Hone.
  assert (Hcount : length (na_rm (region_counts (s_region r) supply))
                   = length (na_rm (List.map num_programs
                                      (List.filter
                                         (fun j => bool_decide (region j = s_region r))
                                         (with_region ipeds_df crosswalk)))))
    by apply region_counts_count.
  rewrite Hcount in Hone. clear Hcount.
  apply peer_supply_rows in Hr as (j & Hj & ->).
  cbn [s_region saturation_percentile saturation_index rank_in_region] in Hone |- *.
  unfold Dplyr.group_rows.
  set (G := List.map num_programs
              (List.filter (fun r' => bool_decide (region r' = region j))
                 (with_region ipeds_df crosswalk))) in *.
  assert (Hin : In (num_programs j) G).
  { apply in_map, filter_In. split; [exact Hj|]. apply bool_decide_eq_true. reflexivity. }
  assert (Hna : percent_rank_at G (num_programs j) = NA).
  { unfold percent_rank_at, min_rank_at.
    destruct (is_na (num_programs j)) eqn:Ex; [reflexivity|].
    pose proof (below_plus_not_below G (num_programs j)) as Hsum.
    pose proof (not_below_self G (num_programs j) Hin Ex) as Hself.
    assert (Hbelow : below G (num_programs j) = 0%nat) by lia.
    assert (Hlen : length (na_rm G) = 1%nat) by lia.
    unfold below in Hbelow. rewrite Hbelow, Hlen. reflexivity. }
  rewrite Hna. split; reflexivity.
Qed.

Lemma lone_region_row_is_high_witness :
  let ipeds_df :=
    [{| ipeds_region := Some "Mid-Atlantic"; ipeds_program_type := Some "Audiology";
        ipeds_num_programs := Num 12; ipeds_total_completions := Num 380 |}] in
  exists r, In r (peer_supply ipeds_df build_shrs_ipeds_crosswalk)
            /\ saturation_percentile r = NA /\ saturation_index r = Some "High".
Proof.
  intros ipeds_df.
  assert (Hrow : exists r, In r (peer_supply ipeds_df build_shrs_ipeds_crosswalk)
                           /\ s_region r = Some "Mid-Atlantic").
  { vm_compute. eexists. split; [left; reflexivity|reflexivity]. }
  destruct Hrow as (r & Hr & Hregion). exists r. split; [exact Hr|].
  apply (lone_region_row_is_high ipeds_df build_shrs_ipeds_crosswalk r Hr).
  rewrite Hregion. vm_compute. lia.
Defined.

(** X19.  Every row of the peer supply table stands for a program of the
    crosswalk and a row of the counts with that program's type, carries that
    row's region and count, and has a region: programs whose type has no
    counted row, or only rows without a region, are left out of the
    table. *)
Theorem peer_supply_rows_come_from_counts :
  forall (ipeds_df : list ipeds_row) (crosswalk : list crosswalk_row) (r : supply_row),
    In r (peer_supply ipeds_df crosswalk) ->
    s_region r <> None
    /\ exists c i,
         In c crosswalk /\ In i ipeds_df
         /\ ipeds_program_type i = Some (cw_program_type c)
         /\ program r = Some (cw_program c)
         /\ program_type r = Some (cw_program_type c)
         /\ s_region r = ipeds_region i
         /\ s_num_programs r = ipeds_num_programs i
         /\ s_total_completions r = ipeds_total_completions i.
Proof.
  intros ipeds_df crosswalk r Hr.
  apply peer_supply_rows in Hr as (j & Hj & ->).
  unfold with_region in Hj. apply filter_In in Hj as [Hj Hregion].
  apply left_join_In in Hj as (c & Hc & Hj).
  cbn [s_region program program_type s_num_programs s_total_completions rank_in_region].
  destruct Hj as [(i & Hi & Hkey & ->)|[_ ->]].
  - simpl in Hregion |- *. split.
    + destruct (ipeds_region i); [discriminate|discriminate].
    + exists c, i. repeat (split; [assumption || reflexivity|]). reflexivity.
  - simpl in Hregion. discriminate.
Qed.

Lemma peer_supply_rows_come_from_counts_witness :
  let ipeds_df :=
    [{| ipeds_region := Some "Northeast"; ipeds_program_type := Some "Dietetics";
        ipeds_num_programs := Num 68; ipeds_total_completions := Num 1920 |}] in
  exists r, In r (peer_supply ipeds_df build_shrs_ipeds_crosswalk)
            /\ s_region r <> None.
Proof.
  intros ipeds_df.
  assert (Hrow : exists r, In r (peer_supply ipeds_df build_shrs_ipeds_crosswalk)).
  { vm_compute. eexists. left. reflexivity. }
  destruct Hrow as (r & Hr). exists r. split; [exact Hr|].
  exact (proj1 (peer_supply_rows_come_from_counts ipeds_df build_shrs_ipeds_crosswalk r Hr)).
Defined.

End PeerSupplyRows.

Section TablesHandedOn.
Import RValue.


End TablesHandedOn.
(** ** Programs without a matching row *)

Section UnmatchedPrograms.
Import RValue.

Lemma num_div_NA_r (x : numeric) : num_div x NA = NA.
Proof. destruct x; reflexivity. Qed.

(** X21.  The labor summary has a row for every program of the crosswalk
    and no others.  A program whose occupation code has no projections row
    gets no projected growth and the growth category "Unknown"; one whose
    code has no wage row gets no median wage and no wage index. *)
Theorem labor_summary_keeps_every_program :
  forall (oews_df : list LaborMarketTrends.oews_row)
         (proj_df : list LaborMarketTrends.proj_row)
         (crosswalk_df : list LaborMarketTrends.crosswalk_row),
    let summary :=
      LaborMarketTrends.compute_labor_market_summary oews_df proj_df crosswalk_df in
    (length crosswalk_df <= length summary)%nat
    /\ (forall c, In c crosswalk_df ->
          exists r, In r summary
                    /\ LaborMarketTrends.program r = Some (LaborMarketTrends.cw_program c))
    /\ (forall r, In r summary ->
          exists c,
            In c crosswalk_df
            /\ LaborMarketTrends.program r = Some (LaborMarketTrends.cw_program c)
            /\ ((forall p, In p proj_df ->
                   LaborMarketTrends.proj_soc_code p
                   <> Some (LaborMarketTrends.cw_soc_code c)) ->
                LaborMarketTrends.projected_growth_pct r = NA
                /\ LaborMarketTrends.growth_category r = Some "Unknown")
            /\ ((forall o, In o oews_df ->
                   LaborMarketTrends.soc_code o
                   <> Some (LaborMarketTrends.cw_soc_code c)) ->
                LaborMarketTrends.s_median_wage_annual r = NA
                /\ LaborMarketTrends.wage_index r = NA)).
Proof.
  intros oews_df proj_df crosswalk_df summary. subst summary.
  unfold LaborMarketTrends.compute_labor_market_summary. cbv zeta.
  set (labor_data := LaborMarketTrends.join_labor_data oews_df proj_df crosswalk_df).
  set (grand := median_na_rm (List.map LaborMarketTrends.ld_median_wage_annual labor_data)).
  split; [|split].
  - rewrite arrange_length, length_map. unfold labor_data, LaborMarketTrends.join_labor_data.
    etransitivity; [|apply left_join_length_ge]. apply left_join_length_ge.
  - intros c Hc.
    destruct (left_join_keeps (fun c => Some (LaborMarketTrends.cw_soc_code c))
                LaborMarketTrends.soc_code (fun c o => (c, o)) c crosswalk_df oews_df Hc)
      as (o & Ho).
    destruct (left_join_keeps
                (fun co : LaborMarketTrends.crosswalk_row
                          * option LaborMarketTrends.oews_row =>
                   Some (LaborMarketTrends.cw_soc_code (fst co)))
                LaborMarketTrends.proj_soc_code
                (fun co p => {| LaborMarketTrends.ld_crosswalk := fst co;
                                LaborMarketTrends.ld_oews := snd co;
                                LaborMarketTrends.ld_proj := p |})
                (c, o) _ proj_df Ho) as (p & Hp).
    eexists. split.
    + apply arrange_In, in_map. exact Hp.
    + reflexivity.
  - intros r Hr. apply arrange_In, in_map_iff in Hr as (ld & <- & Hld).
    unfold labor_data, LaborMarketTrends.join_labor_data in Hld.
    apply left_join_In in Hld as (co & Hco & Hld).
    apply left_join_In in Hco as (c & Hc & Hco).
    exists c. split; [exact Hc|].
    assert (Hfst : fst co = c) by (destruct Hco as [(o & _ & _ & ->)|[_ ->]]; reflexivity).
    cbn [LaborMarketTrends.program LaborMarketTrends.projected_growth_pct
         LaborMarketTrends.growth_category LaborMarketTrends.s_median_wage_annual
         LaborMarketTrends.wage_index].
    split; [|split].
    + destruct Hld as [(p & _ & _ & ->)|[_ ->]]; simpl; rewrite Hfst; reflexivity.
    + intros Hnone.
      assert (Hproj : LaborMarketTrends.ld_proj ld = None).
      { destruct Hld as [(p & Hp & Hkey & ->)|[_ ->]]; [|reflexivity].
        exfalso. apply (Hnone p Hp). rewrite Hkey, Hfst. reflexivity. }
      unfold LaborMarketTrends.ld_change_percent. rewrite Hproj. split; reflexivity.
    + intros Hnone.
      assert (Hoews : LaborMarketTrends.ld_oews ld = None).
      { assert (Hsnd : snd co = None).
        { destruct Hco as [(o & Ho & Hkey & ->)|[_ ->]]; [|reflexivity].
          exfalso. exact (Hnone o Ho Hkey). }
        destruct Hld as [(p & _ & _ & ->)|[_ ->]]; exact Hsnd. }
      unfold LaborMarketTrends.ld_median_wage_annual. rewrite Hoews.
      split; reflexivity.
Qed.

(** X22.  A program of the wage-versus-cost table without a tuition row has
    no program cost, no wage-to-cost ratio and no tuition index, and is put
    in the category "Challenging". *)
Theorem missing_tuition_is_challenging :
  forall (labor_df : list WageVsCost.labor_row) (tuition_df : list WageVsCost.tuition_row)
         (r : WageVsCost.context_row),
    In r (WageVsCost.wage_cost_context labor_df tuition_df) ->
    (forall t, In t tuition_df -> WageVsCost.t_program t <> WageVsCost.program r) ->
    WageVsCost.total_program_cost r = NA
    /\ WageVsCost.wage_to_cost_ratio r = NA
    /\ WageVsCost.tuition_index r = NA
    /\ WageVsCost.context_category r = Some "Challenging".
Proof.
  intros labor_df tuition_df r Hr Hnone.
  unfold WageVsCost.wage_cost_context in Hr. cbv zeta in Hr.
  apply arrange_In, in_map_iff in Hr as (wc & <- & Hwc).
  unfold WageVsCost.wage_cost in Hwc.
  apply left_join_In in Hwc as (l & Hl & Hwc).
  cbn [WageVsCost.program WageVsCost.total_program_cost WageVsCost.wage_to_cost_ratio
       WageVsCost.tuition_index WageVsCost.context_category] in Hnone |- *.
  assert (Htuition : WageVsCost.wc_tuition wc = None).
  { destruct Hwc as [(t & Ht & Hkey & ->)|[_ ->]]; [|reflexivity].
    exfalso. exact (Hnone t Ht Hkey). }
  unfold WageVsCost.wc_total_program_cost. rewrite Htuition.
  rewrite num_div_NA_r. repeat split; reflexivity.
Qed.

Lemma missing_tuition_is_challenging_witness :
  let labor_df :=
    [{| WageVsCost.l_program := Some "SMN_AT"; WageVsCost.l_median_wage_annual := Num 51070;
        WageVsCost.l_wage_index := Num 0.75 |}] in
  exists r, In r (WageVsCost.wage_cost_context labor_df [])
            /\ WageVsCost.wage_to_cost_ratio r = NA
            /\ WageVsCost.context_category r = Some "Challenging".
Proof.
  intros labor_df.
  assert (Hrow : exists r, In r (WageVsCost.wage_cost_context labor_df [])).
  { vm_compute. eexists. left. reflexivity. }
  destruct Hrow as [r Hr]. exists r. split; [exact Hr|].
  destruct (missing_tuition_is_challenging labor_df [] r Hr) as (_ & Hratio & _ & Hcat).
  - intros t [].
  - split; [exact Hratio|exact Hcat].
Defined.

End UnmatchedPrograms.
